(** * zendev: the repository-synchronization core ([zendev/repo.py])

    A shallow embedding of class [Repository]: its pure string handling
    (URL normalisation, parsing of the short status output, the commit
    count of [push]) and its effectful operations, written in a state and
    exception monad over an explicit model of the working copy and of the
    external tools (git, git-flow, the hosting API). *)

From Stdlib Require Import String Ascii List Bool Arith Lia.
From Stdlib Require Decimal DecimalString.
Import ListNotations.
Local Open Scope list_scope.
Local Open Scope string_scope.

(** ** Python string primitives used by [repo.py] *)

Module Py.

(** The characters of a byte string that [\s] and [str.split()] treat as
    white space: space, [\t], [\n], [\v], [\f], [\r]. *)
Definition isspace (c : ascii) : bool :=
  let n := nat_of_ascii c in
  Nat.eqb n 32 || (Nat.leb 9 n && Nat.leb n 13).

Definition newline : ascii := ascii_of_nat 10.
Definition nul : ascii := ascii_of_nat 0.

(** [s.startswith(c)] for a one-character argument. *)
Definition startswith (c : ascii) (s : string) : bool :=
  match s with
  | String d _ => Ascii.eqb d c
  | EmptyString => false
  end.

(** [s[:n]] *)
Definition take (n : nat) (s : string) : string := substring 0 n s.

(** Truth value of a string: non-empty. *)
Definition truthy (s : string) : bool :=
  match s with EmptyString => false | String _ _ => true end.

(** [s.split(sep)] for a one-character separator: never returns an empty
    list. *)
Fixpoint split (sep : ascii) (s : string) : list string :=
  match s with
  | EmptyString => [EmptyString]
  | String c s' =>
      if Ascii.eqb c sep then EmptyString :: split sep s'
      else match split sep s' with
           | w :: ws => String c w :: ws
           | [] => [String c EmptyString]
           end
  end.

(** [s.count(c)] for a one-character argument. *)
Fixpoint count (c : ascii) (s : string) : nat :=
  match s with
  | EmptyString => 0
  | String d s' => (if Ascii.eqb d c then 1 else 0) + count c s'
  end.

(** [s.rsplit(sep, 1)[-1]]: what follows the last separator, the whole
    string when there is none. *)
Definition rsplit1_last (sep : ascii) (s : string) : string :=
  last (split sep s) s.

(** [l[-2:]] *)
Definition last2 {A} (l : list A) : list A := skipn (length l - 2) l.

(** [s.split()]: the maximal runs of non-blank characters. [cur] is the
    run being read, reversed. *)
Fixpoint split_ws_aux (cur : list ascii) (s : string) : list string :=
  let flush rest :=
    match cur with
    | [] => rest
    | _ => string_of_list_ascii (List.rev cur) :: rest
    end in
  match s with
  | EmptyString => flush []
  | String c s' =>
      if isspace c then flush (split_ws_aux [] s')
      else split_ws_aux (c :: cur) s'
  end.

Definition split_ws (s : string) : list string := split_ws_aux [] s.

(** [s.endswith(suffix)] *)
Definition endswith (suffix s : string) : bool :=
  let n := String.length s in
  let k := String.length suffix in
  Nat.leb k n && String.eqb (substring (n - k) k s) suffix.

(** [s[:-k]] for [k > 0]. *)
Definition drop_last (k : nat) (s : string) : string :=
  substring 0 (String.length s - k) s.

(** [str(n)] and ["%s" % n] for a non-negative integer. *)
Definition str_of_nat (n : nat) : string :=
  DecimalString.NilZero.string_of_uint (Nat.to_uint n).

(** [any(t)] for the triple of flags returned by [changes]. *)
Definition any3 (t : bool * bool * bool) : bool :=
  let '(a, b, c) := t in a || b || c.

End Py.

(** ** The pattern of [is_github]

    [re.compile('^[^\/\s@]+\/[^\/\s]+$').match]: the pattern is kept as the
    sequence of its five items and matched with the semantics of Python's
    [re]: [match] anchors at the start of the string and accepts any
    remainder; without [MULTILINE], [^] holds at position 0 only and [$]
    holds at the end of the string and just before a newline that is its
    last character; [+] is greedy and backtracks. *)

Module Re.

Inductive cls : Type :=
| CChar (c : ascii)   (* a character of the set *)
| CSpace.             (* \s *)

Inductive item : Type :=
| Bol                       (* ^ *)
| Eol                       (* $ *)
| Lit (c : ascii)           (* an (escaped) literal *)
| PlusNot (set : list cls). (* [^...]+ *)

Definition in_cls (d : ascii) (k : cls) : bool :=
  match k with
  | CChar c => Ascii.eqb d c
  | CSpace => Py.isspace d
  end.

Definition in_set (set : list cls) (d : ascii) : bool :=
  existsb (in_cls d) set.

Definition at_eol (s : string) : bool :=
  match s with
  | EmptyString => true
  | String c EmptyString => Ascii.eqb c Py.newline
  | _ => false
  end.

(** One or more characters outside [set], then the continuation [k]. *)
Fixpoint plus_not (set : list cls) (k : string -> bool) (s : string) : bool :=
  match s with
  | EmptyString => false
  | String d s' => negb (in_set set d) && (plus_not set k s' || k s')
  end.

(** [match_here p start s]: [p] matches a prefix of [s]; [start] tells
    whether [s] begins at position 0 of the subject. *)
Fixpoint match_here (p : list item) (start : bool) (s : string) : bool :=
  match p with
  | [] => true
  | Bol :: p' => start && match_here p' start s
  | Eol :: p' => at_eol s && match_here p' start s
  | Lit c :: p' =>
      match s with
      | String d s' => Ascii.eqb d c && match_here p' false s'
      | EmptyString => false
      end
  | PlusNot set :: p' => plus_not set (match_here p' false) s
  end.

Definition re_match (p : list item) (s : string) : bool :=
  match_here p true s.

End Re.

Definition slash : ascii := "/"%char.
Definition at_sign : ascii := "@"%char.

Definition github_pattern : list Re.item :=
  [ Re.Bol;
    Re.PlusNot [Re.CChar slash; Re.CSpace; Re.CChar at_sign];
    Re.Lit slash;
    Re.PlusNot [Re.CChar slash; Re.CSpace];
    Re.Eol ].

Definition is_github (url : string) : bool := Re.re_match github_pattern url.

Definition _proper_url (url : string) : string :=
  if is_github url then "git@github.com:" ++ url else url.

(** ** [Repository.changes]: parsing of [git status -z --porcelain] *)

(** One iteration of the loop body on the flags [(staged, unstaged,
    untracked)]; [char] is [x[:2]]. *)
Definition changes_step (flags : bool * bool * bool) (char : string)
  : bool * bool * bool :=
  let '(staged, unstaged, untracked) := flags in
  if Py.startswith "?"%char char then (staged, unstaged, true)
  else if Py.startswith " "%char char then (staged, true, untracked)
  else if Py.truthy char then (true, unstaged, untracked)
  else (staged, unstaged, untracked).

Definition parse_changes (status : string) : bool * bool * bool :=
  let lines := Py.split Py.nul status in
  fold_left changes_step (map (Py.take 2) lines) (false, false, false).

(** ** The working copy and the external tools *)

(** [repo.repo.head]: attached to a branch (with its tracking branch, if
    any, and the commit it points to) or detached at a commit. *)
Inductive Head : Type :=
| Attached (name : string) (tracking : option string) (hexsha : string)
| Detached (sha : string).

(** A parsed JSON document, as [github.perform] returns it. *)
Local Unset Elimination Schemes.
Inductive Json : Type :=
| JNull
| JBool (b : bool)
| JNum (repr : string)
| JStr (s : string)
| JList (items : list Json)
| JDict (fields : list (string * Json)).
Local Set Elimination Schemes.

(** What the read-only queries of git, git-flow and the file system answer
    in the current state of the working copy. *)
Record World : Type := {
  path_check : bool;                        (* self.path.check() *)
  is_git_repo : bool;                       (* is_git_repo(self.path) *)
  is_initialized : bool;                    (* GitFlow.is_initialized() *)
  head : Head;                              (* repo.head / repo.active_branch *)
  status_z : string;                        (* git status -z --porcelain *)
  branch_names : bool -> list string;       (* GitFlow.branch_names(remote) *)
  tags : list string;                       (* names of repo.tags *)
  is_merged_into : string -> string -> bool;(* GitFlow.is_merged_into *)
  rev_list : string -> string;              (* git rev-list <b> --not --remotes *)
  origin : string;                          (* GitFlow.origin() *)
  remote_url : string                       (* repo.remote().url *)
}.

(** Invocations of an external tool that act on the working copy or on the
    remote. *)
Inductive command : Type :=
| GitStash                                   (* git stash -u *)
| GitStashApply                              (* git stash apply *)
| GitFetchAll                                (* git fetch --all *)
| GitRebase (upstream : string)
| GitPush (remote branch : string)
| GitCheckout (ref : string)
| OriginPush (refspec : string)              (* origin().push(refspec) *)
| FlowCreate (kind name : string) (base : option string)
| FlowPublish (kind name : string)
| FlowFinish (kind name : string) (fetch rebase keep force_delete : bool)
| FlowInit
| EnsureDir (child : string)                 (* path.dirpath().ensure(dir=True) *)
| CloneFrom (url path : string) (depth : option nat) (branch : option string).

(** The JSON body of the pull-request creation call. *)
Record PullData : Type := {
  pull_title : string;
  pull_body : string;
  pull_head : string;
  pull_base : string
}.

(** Everything an operation does that is visible from outside. *)
Inductive event : Type :=
| Run (c : command)
| Message (msg : string)                     (* self.message(msg) *)
| LogError (msg : string)                    (* log.error(msg) *)
| LogInfo (msg : string)                     (* log.info(msg) *)
| Sleep (seconds : nat)
| Post (endpoint : string) (data : PullData).         (* github.perform *)

Inductive exn : Type :=
| TypeError
| AttributeError
| KeyError (key : string)
| ValueError
| IndexError
| GitCommandError
| PyException (msg : string)
| ToolError (msg : string).                  (* any other library exception *)

Inductive Res (A : Type) : Type :=
| Ret (a : A)
| Raise (e : exn).
Arguments Ret {A} a.
Arguments Raise {A} e.

(** The behaviour of the external collaborators: how a command changes the
    working copy and whether it fails, what the hosting API answers, and
    the two library printers whose output ends up in messages. *)
Record Tools : Type := {
  exec : command -> World -> option exn * World;
  perform : World -> string -> PullData -> Res Json;
  json_dumps : Json -> string;               (* json.dumps(e, indent=2) *)
  py_str : Json -> string                    (* str() of a non-string value *)
}.

(** ** The [Repository] object *)

Inductive GitFlow : Type :=
| GitFlowAt (path : string).

(** The values remembered by the [@memoize]d properties of one instance. *)
Record Memo : Type := {
  memo_branch : option (option string);
  memo_hash : option (option string);
  memo_remote_branch : option (option string);
  memo_remote_branches : option (list string);
  memo_local_branches : option (list string);
  memo_tag_names : option (list string);
  memo_changes : option (bool * bool * bool);
  memo_repo : option (option GitFlow)
}.

Definition no_memo : Memo :=
  {| memo_branch := None; memo_hash := None; memo_remote_branch := None;
     memo_remote_branches := None; memo_local_branches := None;
     memo_tag_names := None; memo_changes := None; memo_repo := None |}.

Record Repository : Type := {
  name : string;
  path : string;
  reponame : string;
  url : string;
  ref : string;
  _repo : option GitFlow;
  memo : Memo
}.

(** [Repository.__init__] *)
Definition init (localpath path repo name ref : string) : Repository :=
  {| name := if Py.truthy name then name else localpath;
     path := path;
     reponame := repo;
     url := _proper_url repo;
     ref := ref;
     _repo := None;
     memo := no_memo |}.

Definition set__repo (g : option GitFlow) (r : Repository) : Repository :=
  {| name := name r; path := path r; reponame := reponame r; url := url r;
     ref := ref r; _repo := g; memo := memo r |}.

Definition set_memo (m : Memo) (r : Repository) : Repository :=
  {| name := name r; path := path r; reponame := reponame r; url := url r;
     ref := ref r; _repo := _repo r; memo := m |}.

(** ** The monad of the operations: state, exceptions and emitted events *)

Record State : Type := {
  self : Repository;
  world : World
}.

Record Outcome (A : Type) : Type := {
  result : Res A;
  after : State;
  emitted : list event
}.
Arguments result {A} o.
Arguments after {A} o.
Arguments emitted {A} o.

Definition M (A : Type) : Type := State -> Outcome A.

Definition ret {A} (a : A) : M A :=
  fun st => {| result := Ret a; after := st; emitted := [] |}.

Definition raise {A} (e : exn) : M A :=
  fun st => {| result := Raise e; after := st; emitted := [] |}.

Definition bind {A B} (m : M A) (f : A -> M B) : M B :=
  fun st =>
    match m st with
    | {| result := Ret a; after := st'; emitted := es |} =>
        match f a st' with
        | {| result := r; after := st''; emitted := es' |} =>
            {| result := r; after := st''; emitted := (es ++ es')%list |}
        end
    | {| result := Raise e; after := st'; emitted := es |} =>
        {| result := Raise e; after := st'; emitted := es |}
    end.

(** [try: m  except E: handler], where [catches] recognises [E]. *)
Definition try_except {A} (m : M A) (catches : exn -> bool) (handler : M A)
  : M A :=
  fun st =>
    match m st with
    | {| result := Ret a; after := st'; emitted := es |} =>
        {| result := Ret a; after := st'; emitted := es |}
    | {| result := Raise e; after := st'; emitted := es |} =>
        if catches e then
          match handler st' with
          | {| result := r; after := st''; emitted := es' |} =>
              {| result := r; after := st''; emitted := (es ++ es')%list |}
          end
        else {| result := Raise e; after := st'; emitted := es |}
    end.

Declare Scope monad_scope.
Delimit Scope monad_scope with monad.
Notation "x <- m ;; k" := (bind m (fun x => k))
  (at level 61, m at next level, right associativity) : monad_scope.
Notation "' p <- m ;; k" := (bind m (fun x => match x with p => k end))
  (at level 61, p pattern, m at next level, right associativity) : monad_scope.
Notation "m ;; k" := (bind m (fun _ => k))
  (at level 61, right associativity) : monad_scope.
Local Open Scope monad_scope.

Definition get_self : M Repository :=
  fun st => {| result := Ret (self st); after := st; emitted := [] |}.

Definition get_world : M World :=
  fun st => {| result := Ret (world st); after := st; emitted := [] |}.

Definition modify_self (f : Repository -> Repository) : M unit :=
  fun st => {| result := Ret tt;
               after := {| self := f (self st); world := world st |};
               emitted := [] |}.

Definition emit (e : event) : M unit :=
  fun st => {| result := Ret tt; after := st; emitted := [e] |}.

Definition is_TypeError (e : exn) : bool :=
  match e with TypeError => true | _ => false end.

Definition is_GitCommandError (e : exn) : bool :=
  match e with GitCommandError => true | _ => false end.

(** ** The operations of [Repository] *)

Section Operations.

Variable T : Tools.

(** Runs an external command: it is recorded, the working copy changes
    as the tool dictates, and the tool's failure is raised. *)
Definition run (c : command) : M unit :=
  fun st =>
    let '(failure, w) := exec T c (world st) in
    {| result := match failure with
                 | None => Ret tt
                 | Some e => Raise e
                 end;
       after := {| self := self st; world := w |};
       emitted := [Run c] |}.

(** Modelled from the spec: the decorator [memoize] of [zendev/utils.py],
    which is not among the sources. A derived property is "computed
    lazily, memoized once per process lifetime" and "never implicitly
    refreshed": the first access runs the body and stores its value in
    the instance, every later access returns the stored value. *)
Definition memoize {A} (slot : Memo -> option A)
    (store : A -> Memo -> Memo) (body : M A) : M A :=
  r <- get_self ;;
  match slot (memo r) with
  | Some v => ret v
  | None =>
      v <- body ;;
      modify_self (fun r => set_memo (store v (memo r)) r) ;;
      ret v
  end.

Definition store_branch v (m : Memo) : Memo :=
  {| memo_branch := Some v; memo_hash := memo_hash m;
     memo_remote_branch := memo_remote_branch m;
     memo_remote_branches := memo_remote_branches m;
     memo_local_branches := memo_local_branches m;
     memo_tag_names := memo_tag_names m; memo_changes := memo_changes m;
     memo_repo := memo_repo m |}.

Definition store_hash v (m : Memo) : Memo :=
  {| memo_branch := memo_branch m; memo_hash := Some v;
     memo_remote_branch := memo_remote_branch m;
     memo_remote_branches := memo_remote_branches m;
     memo_local_branches := memo_local_branches m;
     memo_tag_names := memo_tag_names m; memo_changes := memo_changes m;
     memo_repo := memo_repo m |}.

Definition store_remote_branch v (m : Memo) : Memo :=
  {| memo_branch := memo_branch m; memo_hash := memo_hash m;
     memo_remote_branch := Some v;
     memo_remote_branches := memo_remote_branches m;
     memo_local_branches := memo_local_branches m;
     memo_tag_names := memo_tag_names m; memo_changes := memo_changes m;
     memo_repo := memo_repo m |}.

Definition store_remote_branches v (m : Memo) : Memo :=
  {| memo_branch := memo_branch m; memo_hash := memo_hash m;
     memo_remote_branch := memo_remote_branch m;
     memo_remote_branches := Some v;
     memo_local_branches := memo_local_branches m;
     memo_tag_names := memo_tag_names m; memo_changes := memo_changes m;
     memo_repo := memo_repo m |}.

Definition store_local_branches v (m : Memo) : Memo :=
  {| memo_branch := memo_branch m; memo_hash := memo_hash m;
     memo_remote_branch := memo_remote_branch m;
     memo_remote_branches := memo_remote_branches m;
     memo_local_branches := Some v;
     memo_tag_names := memo_tag_names m; memo_changes := memo_changes m;
     memo_repo := memo_repo m |}.

Definition store_tag_names v (m : Memo) : Memo :=
  {| memo_branch := memo_branch m; memo_hash := memo_hash m;
     memo_remote_branch := memo_remote_branch m;
     memo_remote_branches := memo_remote_branches m;
     memo_local_branches := memo_local_branches m;
     memo_tag_names := Some v; memo_changes := memo_changes m;
     memo_repo := memo_repo m |}.

Definition store_changes v (m : Memo) : Memo :=
  {| memo_branch := memo_branch m; memo_hash := memo_hash m;
     memo_remote_branch := memo_remote_branch m;
     memo_remote_branches := memo_remote_branches m;
     memo_local_branches := memo_local_branches m;
     memo_tag_names := memo_tag_names m; memo_changes := Some v;
     memo_repo := memo_repo m |}.

Definition store_repo v (m : Memo) : Memo :=
  {| memo_branch := memo_branch m; memo_hash := memo_hash m;
     memo_remote_branch := memo_remote_branch m;
     memo_remote_branches := memo_remote_branches m;
     memo_local_branches := memo_local_branches m;
     memo_tag_names := memo_tag_names m; memo_changes := memo_changes m;
     memo_repo := Some v |}.

Definition is_some {A} (o : option A) : bool :=
  match o with Some _ => true | None => false end.

Definition initialize : M unit :=
  r <- get_self ;;
  w <- get_world ;;
  (if negb (is_some (_repo r)) && is_git_repo w
   then modify_self (set__repo (Some (GitFlowAt (path r))))
   else ret tt) ;;
  r <- get_self ;;
  w <- get_world ;;
  if is_some (_repo r) && negb (is_initialized w)
  then run FlowInit
  else ret tt.

(** The property [repo]; [None] is Python's [None]. *)
Definition repo : M (option GitFlow) :=
  memoize memo_repo store_repo
    (initialize ;;
     r <- get_self ;;
     ret (_repo r)).

(** [self.repo.<attribute>]: an attribute of [None] does not exist. *)
Definition repo_attr : M GitFlow :=
  g <- repo ;;
  match g with
  | Some g => ret g
  | None => raise AttributeError
  end.

(** [self.repo.repo.active_branch]: its name and tracking branch;
    a detached head has no active branch. *)
Definition active_branch : M (string * option string) :=
  repo_attr ;;
  w <- get_world ;;
  match head w with
  | Attached name tracking _ => ret (name, tracking)
  | Detached _ => raise TypeError
  end.

(** [sha, target = head._get_ref_info(head.repo, head.path)]: the first
    component, which is [None] for a symbolic head. *)
Definition head_sha : M (option string) :=
  repo_attr ;;
  w <- get_world ;;
  match head w with
  | Attached _ _ _ => ret None
  | Detached sha => ret (Some sha)
  end.

Definition branch : M (option string) :=
  memoize memo_branch store_branch
    (try_except
       ('(name, _) <- active_branch ;; ret (Some name))
       is_TypeError
       head_sha).

Definition hash : M (option string) :=
  memoize memo_hash store_hash
    (try_except
       (repo_attr ;;
        w <- get_world ;;
        match head w with
        | Attached _ _ hexsha => ret (Some hexsha)
        | Detached _ => raise TypeError
        end)
       is_TypeError
       head_sha).

Definition remote_branch : M (option string) :=
  memoize memo_remote_branch store_remote_branch
    ('(_, tracking) <- active_branch ;; ret tracking).

Definition remote_branches : M (list string) :=
  memoize memo_remote_branches store_remote_branches
    (repo_attr ;; w <- get_world ;; ret (branch_names w true)).

Definition local_branches : M (list string) :=
  memoize memo_local_branches store_local_branches
    (repo_attr ;; w <- get_world ;; ret (branch_names w false)).

Definition tag_names : M (list string) :=
  memoize memo_tag_names store_tag_names
    (repo_attr ;; w <- get_world ;; ret (tags w)).

Definition changes : M (bool * bool * bool) :=
  memoize memo_changes store_changes
    (repo_attr ;; w <- get_world ;; ret (parse_changes (status_z w))).

Definition opt_eqb (a b : option string) : bool :=
  match a, b with
  | Some x, Some y => String.eqb x y
  | None, None => true
  | _, _ => false
  end.

Definition checkout (ref : string) : M unit :=
  b <- branch ;;
  if negb (opt_eqb (Some ref) b)
  then repo_attr ;; run (GitCheckout ref)
  else ret tt.

Definition clone (shallow : bool) : M unit :=
  r <- get_self ;;
  w <- get_world ;;
  let depth := if shallow then Some 1 else None in
  let branch := if Py.truthy (ref r) then Some (ref r) else None in
  if path_check w then
    raise (PyException
             ("Something already exists at " ++ path r ++ ". Remove it first."))
  else
    run (EnsureDir (path r)) ;;
    try_except
      (run (CloneFrom (url r) (path r) depth branch))
      is_GitCommandError
      (run (CloneFrom (url r) (path r) None None) ;;
       run (GitCheckout (ref r))) ;;
    modify_self (set__repo (Some (GitFlowAt (path r)))) ;;
    if negb shallow then initialize else ret tt.

Definition shallow_clone : M unit := clone true.

Definition start_feature (name : string) (base : option string) : M unit :=
  repo_attr ;; run (FlowCreate "feature" name base).

Definition publish_feature (name : string) : M unit :=
  repo_attr ;; run (FlowPublish "feature" name).

Definition mem (x : string) (l : list string) : bool :=
  existsb (String.eqb x) l.

Definition finish_feature (name : string) : M unit :=
  let feature_name := "feature/" ++ name in
  let origin_feature_name := "origin/feature/" ++ name in
  lb <- local_branches ;;
  (if mem feature_name lb
   then repo_attr ;; run (FlowFinish "feature" name true false false true)
   else ret tt) ;;
  rb <- remote_branches ;;
  if mem origin_feature_name rb
  then repo_attr ;; run (OriginPush (":" ++ feature_name))
  else ret tt.

Definition stash : M unit := repo_attr ;; run GitStash.

Definition apply_stash : M unit := repo_attr ;; run GitStashApply.

Definition fetch : M unit := repo_attr ;; run GitFetchAll.

Definition message (msg : string) : M unit := emit (Message msg).

Definition rebase_message (name remote_name local_name : string) : string :=
  "Changes found in " ++ name ++ ":" ++ remote_name ++ "! Rebasing "
    ++ local_name ++ "...".

(** [tracking.name if tracking else local_name] *)
Definition effective_remote (local_name : string) (tracking : option string)
  : string :=
  match tracking with
  | Some t => t
  | None => local_name
  end.

Definition merge_from_remote : M unit :=
  ab <- try_except
          (b <- active_branch ;; ret (Some b))
          is_TypeError
          (ret None) ;;
  match ab with
  | None => ret tt                      (* We're detached *)
  | Some (local_name, tracking) =>
      let remote_name := effective_remote local_name tracking in
      repo_attr ;;
      w <- get_world ;;
      if is_merged_into w remote_name local_name then
        ret tt                          (* Nothing to do *)
      else
        r <- get_self ;;
        message (rebase_message (name r) remote_name local_name) ;;
        ch <- changes ;;
        let weStashed := Py.any3 ch in
        (if weStashed then stash else ret tt) ;;
        repo_attr ;;
        run (GitRebase remote_name) ;;
        try_except
          (if weStashed then apply_stash else ret tt)
          is_GitCommandError
          (ret tt)
  end.

Definition push_message (output name local_name : string) : string :=
  Py.str_of_nat (Py.count Py.newline output + 1) ++ " local commits in "
    ++ name ++ ":" ++ local_name ++ " need to be pushed.  Pushing...".

Definition push : M unit :=
  ab <- try_except
          (b <- active_branch ;; ret (Some b))
          is_TypeError
          (ret None) ;;
  match ab with
  | None => ret tt                      (* We're detached *)
  | Some (local_name, _) =>
      repo_attr ;;
      w <- get_world ;;
      let remote := origin w in
      repo_attr ;;
      w <- get_world ;;
      let output := rev_list w local_name in
      if Py.truthy output then
        r <- get_self ;;
        message (push_message output (name r) local_name) ;;
        repo_attr ;;
        run (GitPush remote local_name)
      else ret tt
  end.

Definition create_feature (name : string) : M unit :=
  let fname := "feature/" ++ name in
  let ofname := "origin/feature/" ++ name in
  lb <- local_branches ;;
  let local := mem fname lb in
  rb <- remote_branches ;;
  let remote := mem ofname rb in
  if local && remote then ret tt
  else if negb local && remote then fetch
  else if local && negb remote then publish_feature name
  else start_feature name None ;; publish_feature name.

(** *** The pull-request workflow *)

Definition lookup (key : string) (fields : list (string * Json))
  : option Json :=
  match find (fun kv => String.eqb (fst kv) key) fields with
  | Some kv => Some (snd kv)
  | None => None
  end.

Definition is_str (key : string) (v : Json) : bool :=
  match v with JStr s => String.eqb s key | _ => false end.

(** [key in obj] *)
Definition py_in (key : string) (obj : Json) : M bool :=
  match obj with
  | JDict fields => ret (is_some (lookup key fields))
  | JList items => ret (existsb (is_str key) items)
  | JStr s => ret (is_some (index 0 key s))
  | _ => raise TypeError
  end.

(** [obj[key]] for a string key *)
Definition py_getitem (obj : Json) (key : string) : M Json :=
  match obj with
  | JDict fields =>
      match lookup key fields with
      | Some v => ret v
      | None => raise (KeyError key)
      end
  | _ => raise TypeError
  end.

(** The elements [for e in obj] goes through. *)
Definition py_iter (obj : Json) : M (list Json) :=
  match obj with
  | JList items => ret items
  | JDict fields => ret (map (fun kv => JStr (fst kv)) fields)
  | JStr s =>
      ret (map (fun c => JStr (String c EmptyString)) (list_ascii_of_string s))
  | _ => raise TypeError
  end.

(** [obj.get(key, default)] *)
Definition py_get (obj : Json) (key : string) (default : Json) : M Json :=
  match obj with
  | JDict fields =>
      ret (match lookup key fields with Some v => v | None => default end)
  | _ => raise AttributeError
  end.

(** ["%s" % v] *)
Definition format_s (v : Json) : string :=
  match v with
  | JStr s => s
  | _ => py_str T v
  end.

Fixpoint for_each {A} (l : list A) (body : A -> M unit) : M unit :=
  match l with
  | [] => ret tt
  | x :: l' => body x ;; for_each l' body
  end.

(** Modelled from the spec: [error] and [info] of [zendev/log.py], which
    is not among the sources; they report a line to the user and return
    ("reports an error, does not raise fatally"). *)
Definition error (msg : string) : M unit := emit (LogError msg).
Definition info (msg : string) : M unit := emit (LogInfo msg).

Definition sleep (seconds : nat) : M unit := emit (Sleep seconds).

(** [header, response = github.perform("POST", endpoint, data=...)] *)
Definition github_post (endpoint : string) (data : PullData) : M Json :=
  fun st =>
    {| result := perform T (world st) endpoint data;
       after := st;
       emitted := [Post endpoint data] |}.

(** Lines 260-264: what is done with the answer of the hosting API. *)
Definition handle_response (response : Json) : M unit :=
  found <- py_in "html_url" response ;;
  if found : bool then
    v <- py_getitem response "html_url" ;;
    info ("Pull Request: " ++ format_s v)
  else
    m <- py_getitem response "message" ;;
    if is_str "Validation Failed" m then
      errors <- py_getitem response "errors" ;;
      es <- py_iter errors ;;
      for_each es
        (fun e =>
           v <- py_get e "message" (JStr (json_dumps T e)) ;;
           error ("Error: " ++ format_s v))
    else ret tt.

(** [owner] and [repo] of lines 241-246, from the URL of the remote. *)
Definition owner_repo (url : string) : Res (string * string) :=
  let line := Py.rsplit1_last ":" url in
  match Py.last2 (Py.split slash line) with
  | [owner; repo] =>
      match Py.split_ws repo with
      | repo :: _ =>
          Ret (owner,
               if Py.endswith ".git" repo then Py.drop_last 4 repo else repo)
      | [] => Raise IndexError
      end
  | _ => Raise ValueError
  end.

Definition lift {A} (r : Res A) : M A :=
  match r with
  | Ret a => ret a
  | Raise e => raise e
  end.

Definition create_pull_request (feature_name body base : string) : M unit :=
  '(staged, unstaged, untracked) <- changes ;;
  if unstaged : bool then
    r <- get_self ;;
    error ("uncommited changes in: " ++ name r)
  else
    let branch := "feature/" ++ feature_name in
    repo_attr ;;
    w <- get_world ;;
    '(owner, repo) <- lift (owner_repo (remote_url w)) ;;
    push ;;
    sleep 1 ;;
    message "Posting pull request" ;;
    response <- github_post
                  ("/repos/" ++ owner ++ "/" ++ repo ++ "/pulls")
                  {| pull_title := "Please review branch " ++ branch;
                     pull_body := body;
                     pull_head := branch;
                     pull_base := base |} ;;
    handle_response response.

End Operations.

(** ** Specification-side vocabulary *)

Definition nl : string := String Py.newline EmptyString.
Definition NUL : string := String Py.nul EmptyString.

Fixpoint all_chars (p : ascii -> bool) (s : string) : bool :=
  match s with
  | EmptyString => true
  | String c s' => p c && all_chars p s'
  end.

(** The shape of a bare [owner/repo] shorthand, in the words of the
    specification: a non-empty segment without slash, white space or [@],
    a slash, and a non-empty segment without slash or white space. *)
Module Shorthand.

Definition owner_char (c : ascii) : bool :=
  negb (Ascii.eqb c slash) && negb (Py.isspace c) && negb (Ascii.eqb c at_sign).

Definition repo_char (c : ascii) : bool :=
  negb (Ascii.eqb c slash) && negb (Py.isspace c).

Definition is_shorthand (s : string) : Prop :=
  exists owner repo : string,
    s = owner ++ String slash repo
    /\ owner <> "" /\ repo <> ""
    /\ all_chars owner_char owner = true
    /\ all_chars repo_char repo = true.

End Shorthand.

(** The status code of an entry of the short status output, and the three
    classes the specification distinguishes. *)
Module Status.

Definition entries (status : string) : list string := Py.split Py.nul status.

Definition code (entry : string) : string := Py.take 2 entry.

Definition untracked_code (c : string) : bool := Py.startswith "?"%char c.

Definition unstaged_code (c : string) : bool := Py.startswith " "%char c.

Definition staged_code (c : string) : bool :=
  Py.truthy c && negb (untracked_code c) && negb (unstaged_code c).

End Status.

(** The number of lines of a text: its maximal newline-free pieces. *)
Definition line_count (output : string) : nat :=
  length (Py.split Py.newline output).

(** The instance can reach its working copy without setting anything up:
    the handle is memoized already, or the working copy is an initialized
    git-flow repository that [initialize] only has to attach. *)
Definition ready (st : State) : bool :=
  match memo_repo (memo (self st)) with
  | Some g => is_some g
  | None =>
      (is_some (_repo (self st)) || is_git_repo (world st))
      && is_initialized (world st)
  end.

(** The state after the first access to the property [repo]. *)
Definition warm (st : State) : State :=
  match memo_repo (memo (self st)) with
  | Some _ => st
  | None =>
      let g := match _repo (self st) with
               | Some g => Some g
               | None => Some (GitFlowAt (path (self st)))
               end in
      let r := set__repo g (self st) in
      {| self := set_memo (store_repo g (memo r)) r; world := world st |}
  end.

(** The four states of a feature name (section 4.4 of the specification). *)
Inductive FeatureState : Type :=
| Absent
| LocalOnly
| RemoteOnly
| Both.

Definition feature_state (w : World) (name : string) : FeatureState :=
  match mem ("feature/" ++ name) (branch_names w false),
        mem ("origin/feature/" ++ name) (branch_names w true) with
  | true, true => Both
  | true, false => LocalOnly
  | false, true => RemoteOnly
  | false, false => Absent
  end.

(** The action the specification assigns to each state. *)
Definition reconciliation (s : FeatureState) (name : string) : list event :=
  match s with
  | Both => []
  | RemoteOnly => [Run GitFetchAll]
  | LocalOnly => [Run (FlowPublish "feature" name)]
  | Absent => [Run (FlowCreate "feature" name None);
               Run (FlowPublish "feature" name)]
  end.

(** What the specification expects of the tools [create_feature] drives:
    a fetch gives a remote feature branch its local branch, publishing
    gives a local feature branch its remote branch, starting a feature
    creates the local branch; none of them fails. *)
Definition tools_reconcile (T : Tools) (name : string) : Prop :=
  let local w := mem ("feature/" ++ name) (branch_names w false) in
  let remote w := mem ("origin/feature/" ++ name) (branch_names w true) in
  (forall w, remote w = true ->
     fst (exec T GitFetchAll w) = None
     /\ local (snd (exec T GitFetchAll w)) = true
     /\ remote (snd (exec T GitFetchAll w)) = true)
  /\ (forall w, local w = true ->
        fst (exec T (FlowPublish "feature" name) w) = None
        /\ local (snd (exec T (FlowPublish "feature" name) w)) = true
        /\ remote (snd (exec T (FlowPublish "feature" name) w)) = true)
  /\ (forall w,
        fst (exec T (FlowCreate "feature" name None) w) = None
        /\ local (snd (exec T (FlowCreate "feature" name None) w)) = true).

(** The idempotence of [create_feature] as section 8 of the specification
    words it: called twice in a row on a repository, the first call brings
    the feature to the state [Both] and the second call does nothing. *)
Definition second_call_is_noop : Prop :=
  forall (T : Tools) (st : State) (name : string),
    ready st = true ->
    memo_local_branches (memo (self st)) = None ->
    memo_remote_branches (memo (self st)) = None ->
    tools_reconcile T name ->
    emitted (create_feature T name st)
    = reconciliation (feature_state (world st) name) name
    /\ feature_state (world (after (create_feature T name st))) name = Both
    /\ emitted (create_feature T name (after (create_feature T name st))) = [].

(** The report of one entry of the [errors] array of a validation failure:
    its message, or the dump of the entry when it has none. *)
Definition is_dict (v : Json) : bool :=
  match v with JDict _ => true | _ => false end.

Definition error_line (T : Tools) (e : Json) : event :=
  match e with
  | JDict fields =>
      LogError ("Error: " ++
        format_s T (match lookup "message" fields with
                    | Some v => v
                    | None => JStr (json_dumps T e)
                    end))
  | _ => LogError "Error: "
  end.

(** What [push] is specified to do, given the display name of the
    repository: nothing when detached or when no local commit is missing
    from the remotes, else the announcement of the number of lines of the
    rev-list output and the push of the active branch. *)
Definition push_trace (display : string) (w : World) : list event :=
  match head w with
  | Detached _ => []
  | Attached local_name _ _ =>
      let output := rev_list w local_name in
      match output with
      | EmptyString => []
      | _ =>
          [Message (Py.str_of_nat (line_count output) ++ " local commits in "
                      ++ display ++ ":" ++ local_name
                      ++ " need to be pushed.  Pushing...");
           Run (GitPush (origin w) local_name)]
      end
  end.

(** ** Scenarios: concrete tools and working copies *)

Module Scenario.

Definition add (b : string) (l : list string) : list string :=
  if mem b l then l else b :: l.

Definition with_branches (w : World) (f : bool -> list string) : World :=
  {| path_check := path_check w; is_git_repo := is_git_repo w;
     is_initialized := is_initialized w; head := head w;
     status_z := status_z w; branch_names := f; tags := tags w;
     is_merged_into := is_merged_into w; rev_list := rev_list w;
     origin := origin w; remote_url := remote_url w |}.

(** The local name of a remote branch of [origin]. *)
Definition local_of (remote_branch : string) : list string :=
  if String.prefix "origin/" remote_branch
  then [substring 7 (String.length remote_branch - 7) remote_branch]
  else [].

(** Tools that never fail and keep the branch lists as the specification
    describes. *)
Definition well_behaved (c : command) (w : World) : option exn * World :=
  match c with
  | FlowCreate kind n _ =>
      (None, with_branches w (fun remote =>
         if remote then branch_names w true
         else add (kind ++ "/" ++ n) (branch_names w false)))
  | FlowPublish kind n =>
      (None, with_branches w (fun remote =>
         if remote then add ("origin/" ++ kind ++ "/" ++ n) (branch_names w true)
         else branch_names w false))
  | GitFetchAll =>
      (None, with_branches w (fun remote =>
         if remote then branch_names w true
         else fold_right add (branch_names w false)
                (flat_map local_of (branch_names w true))))
  | _ => (None, w)
  end.

(** The same tools, except that re-applying a stash conflicts. *)
Definition conflicting (c : command) (w : World) : option exn * World :=
  match c with
  | GitStashApply => (Some GitCommandError, w)
  | _ => well_behaved c w
  end.

(** A hosting API that answers with an unexpected document. *)
Definition not_found : Json :=
  JDict [("documentation_url", JStr "https://developer.github.com/v3")].

Definition tools : Tools :=
  {| exec := well_behaved;
     perform := fun _ _ _ => Ret not_found;
     json_dumps := fun _ => "{}";
     py_str := fun _ => "<value>" |}.

Definition conflicting_tools : Tools :=
  {| exec := conflicting;
     perform := fun _ _ _ => Ret not_found;
     json_dumps := fun _ => "{}";
     py_str := fun _ => "<value>" |}.

(** A clone of [zenoss/zendev] on [develop], behind [origin/develop], with
    two local commits and the given status output and head. *)
Definition working_copy (hd : Head) (status : string) (merged : bool) : World :=
  {| path_check := true; is_git_repo := true; is_initialized := true;
     head := hd;
     status_z := status;
     branch_names := fun remote =>
       if remote then ["origin/develop"] else ["develop"];
     tags := [];
     is_merged_into := fun _ _ => merged;
     rev_list := fun _ => "1f3e" ++ nl ++ "9a0c";
     origin := "origin";
     remote_url := "git@github.com:zenoss/zendev.git" |}.

Definition on_develop : Head :=
  Attached "develop" (Some "origin/develop") "9a0c".

Definition zendev : Repository :=
  init "zendev" "/src/zendev" "zenoss/zendev" "" "develop".

Definition state (hd : Head) (status : string) (merged : bool) : State :=
  {| self := zendev; world := working_copy hd status merged |}.

End Scenario.

(** ** The command line ([zendev/zendev.py]) *)

Module Zendev.

(** [sub in s] for two strings. *)
Definition contains (sub s : string) : bool := is_some (index 0 sub s).

(** The list as Python reads it: the literals ["init,"] and ["ls"] have no
    comma between them and are one string. *)
Definition all_env_whitelist : list string :=
  ["bootstrap"; "env"; "init," ++ "ls"; "root"; "selfupdate"; "use"].

(** [validate_cmd_env(args)]; [validate_current] is what
    [config.validate(config.current)] answers. *)
Definition validate_cmd_env (subparser : string) (validate_current : bool)
  : bool :=
  if existsb (contains subparser) all_env_whitelist then true
  else validate_current.

(** Lines 137-143 of [parse_args]: the check of the arguments of [build];
    the result is the message given to [build_parser.error], which leaves
    the program. [rps] and [ga_image] are the truth values of the two
    options. *)
Definition check_build_args (rps ga_image : bool) (target : list string)
  : option string :=
  let rps_target := existsb (String.prefix "rps-img-") target in
  if (rps || ga_image) && negb (rps && ga_image) then
    Some "The --rps and --ga_image arguments must be used together"
  else if (rps && negb rps_target) || (negb rps && rps_target) then
    Some "Must call an 'rps-img-%' target with the --rps arg"
  else None.

End Zendev.

(** ** Further vocabulary *)

Definition colon : ascii := ":"%char.

(** The repository name of [create_pull_request] once a final [.git] is
    removed (lines 245-246). *)
Definition strip_git (repo : string) : string :=
  if Py.endswith ".git" repo then Py.drop_last 4 repo else repo.

(** Flag by flag disjunction of two results of [changes]. *)
Definition or3 (x y : bool * bool * bool) : bool * bool * bool :=
  let '(a, b, c) := x in
  let '(a', b', c') := y in
  (a || a', b || b', c || c').

(** The one way [finish_feature] finishes a feature: fetch first, no
    rebase, do not keep the branch, delete it even if unmerged. *)
Definition finish_command (name : string) : command :=
  FlowFinish "feature" name true false false true.

(** ** Further scenarios *)

Module Cases.

(** Tools that fail with [e] on the commands [bad] picks and are the
    well-behaved ones otherwise. *)
Definition failing (bad : command -> bool) (e : exn) : Tools :=
  {| exec := fun c w =>
       if bad c then (Some e, w) else Scenario.well_behaved c w;
     perform := fun _ _ _ => Ret Scenario.not_found;
     json_dumps := fun _ => "{}";
     py_str := fun _ => "<value>" |}.

Definition is_rebase (c : command) : bool :=
  match c with GitRebase _ => true | _ => false end.

Definition is_stash (c : command) : bool :=
  match c with GitStash => true | _ => false end.

Definition is_push (c : command) : bool :=
  match c with GitPush _ _ => true | _ => false end.

(** A clone at a given branch: what git refuses when the ref is a commit. *)
Definition is_branch_clone (c : command) : bool :=
  match c with CloneFrom _ _ _ (Some _) => true | _ => false end.

Definition with_remote_url (w : World) (u : string) : World :=
  {| path_check := path_check w; is_git_repo := is_git_repo w;
     is_initialized := is_initialized w; head := head w;
     status_z := status_z w; branch_names := branch_names w; tags := tags w;
     is_merged_into := is_merged_into w; rev_list := rev_list w;
     origin := origin w; remote_url := u |}.

(** The same working copy before it is cloned: nothing at the path. *)
Definition not_cloned (w : World) : World :=
  {| path_check := false; is_git_repo := false; is_initialized := false;
     head := head w; status_z := status_z w; branch_names := branch_names w;
     tags := tags w; is_merged_into := is_merged_into w;
     rev_list := rev_list w; origin := origin w; remote_url := remote_url w |}.

Definition clean : State := Scenario.state Scenario.on_develop "" false.

Definition dirty : State :=
  Scenario.state Scenario.on_develop (" M setup.py" ++ NUL) false.

Definition staged : State :=
  Scenario.state Scenario.on_develop ("A  setup.py" ++ NUL) false.

Definition before_clone : State :=
  {| self := Scenario.zendev; world := not_cloned (world clean) |}.

(** The feature [x] present locally and remotely. *)
Definition with_feature : State :=
  {| self := Scenario.zendev;
     world := Scenario.with_branches (world clean)
                (fun remote =>
                   if remote then ["origin/develop"; "origin/feature/x"]
                   else ["develop"; "feature/x"]) |}.

End Cases.

(** ** Proof automation *)

(** Symbolic execution of the operations: [run_ops] unfolds the monad and
    the operations, [split_state] and [use_ready] expose the instance and
    the working copy of a ready state, [step_exec] splits on the outcome
    of the next external command. *)

Ltac run_ops :=
  cbv [bind ret raise try_except get_self get_world modify_self emit lift
       run memoize initialize repo repo_attr active_branch head_sha
       branch hash remote_branch remote_branches local_branches tag_names
       changes checkout clone shallow_clone start_feature publish_feature
       finish_feature stash apply_stash fetch message merge_from_remote
       push create_feature error info sleep github_post
       create_pull_request
       store_branch store_hash store_remote_branch store_remote_branches
       store_local_branches store_tag_names store_changes store_repo
       set__repo set_memo is_some is_TypeError is_GitCommandError
       result after emitted self world memo name path reponame url ref _repo
       memo_branch memo_hash memo_remote_branch memo_remote_branches
       memo_local_branches memo_tag_names memo_changes memo_repo
       path_check is_git_repo is_initialized head status_z branch_names tags
       is_merged_into rev_list origin remote_url
       negb andb orb app] in *.

Ltac split_state st :=
  destruct st as [[nm pth rn u rf hdl [mb mh mrb mrbs mlb mt mc mr]]
                  [pc igr ii hd sz bn tg imi rl og ru]];
  destruct mr as [[?|]|], hdl as [?|].

Ltac use_ready R :=
  unfold ready in R; cbn in R;
  repeat match type of R with
         | _ && _ = true => let R' := fresh R in apply andb_prop in R as [R' R]
         end;
  try discriminate; subst; run_ops.

Ltac step_exec T :=
  match goal with
  | |- context [exec T ?c ?w] =>
      let e := fresh "e" in
      let E := fresh "E" in
      destruct (exec T c w) as [[e|] [? ? ? ? ? ? ? ? ? ? ?]] eqn:E; run_ops
  end.


Ltac tool_step T P fact :=
  match goal with
  | |- context [exec T ?c ?w0] =>
      pose proof (fact w0) as P;
      destruct (exec T c w0) as [? [? ? ? ? ? ? ? ? ? ? ?]];
      cbv beta zeta in P; cbn [fst snd branch_names] in P
  end.

Ltac settle EL ER := repeat (progress (rewrite ?EL, ?ER; run_ops)).

Ltac fail_step T F :=
  match type of F with
  | forall w, fst (exec _ ?c w) = _ =>
      match goal with
      | |- context [exec T c ?w0] =>
          let P := fresh "P" in
          pose proof (F w0) as P;
          destruct (exec T c w0) as [? [? ? ? ? ? ? ? ? ? ? ?]];
          cbn [fst] in P; subst; run_ops
      end
  end.

Ltac walk T :=
  repeat first
    [ step_exec T
    | match goal with
      | |- context [match ?e with GitCommandError => _ | _ => _ end] =>
          destruct e; run_ops
      | |- context [if ?b then _ else _] => destruct b; run_ops
      end ].

(** * Properties *)

(** ** Strings *)

Lemma split_not_nil (sep : ascii) (s : string) : Py.split sep s <> [].
Proof.
  destruct s as [|c s]; simpl; [discriminate|].
  destruct (Ascii.eqb c sep); [discriminate|].
  destruct (Py.split sep s); discriminate.
Qed.

Lemma split_length (sep : ascii) (s : string) :
  length (Py.split sep s) = Py.count sep s + 1.
Proof.
  induction s as [|c s IH]; simpl; [reflexivity|].
  destruct (Ascii.eqb c sep); simpl.
  - now rewrite IH.
  - destruct (Py.split sep s) eqn:E; simpl in *; [lia | exact IH].
Qed.

Lemma split_no_sep (sep : ascii) (s : string) :
  Py.count sep s = 0 -> Py.split sep s = [s].
Proof.
  induction s as [|c s IH]; simpl; [reflexivity|].
  destruct (Ascii.eqb c sep); [discriminate|].
  intros H. now rewrite (IH H).
Qed.

Lemma split_app_sep (sep : ascii) (s t : string) :
  Py.count sep s = 0 ->
  Py.split sep (s ++ String sep t) = s :: Py.split sep t.
Proof.
  induction s as [|c s IH]; simpl.
  - now rewrite Ascii.eqb_refl.
  - destruct (Ascii.eqb c sep); [discriminate|].
    intros H. now rewrite (IH H).
Qed.

Lemma count_app (c : ascii) (s t : string) :
  Py.count c (s ++ t) = Py.count c s + Py.count c t.
Proof.
  induction s as [|d s IH]; simpl; [reflexivity|]. rewrite IH. lia.
Qed.

Lemma all_chars_app (p : ascii -> bool) (s t : string) :
  all_chars p (s ++ t) = all_chars p s && all_chars p t.
Proof.
  induction s as [|c s IH]; simpl; [reflexivity|].
  now rewrite IH, andb_assoc.
Qed.

Lemma all_chars_ext (p q : ascii -> bool) (s : string) :
  (forall c, p c = q c) -> all_chars p s = all_chars q s.
Proof.
  intros E. induction s as [|c s IH]; simpl; [reflexivity|].
  now rewrite E, IH.
Qed.

Lemma all_chars_impl (p q : ascii -> bool) (s : string) :
  (forall c, p c = true -> q c = true) ->
  all_chars p s = true -> all_chars q s = true.
Proof.
  intros E. induction s as [|c s IH]; simpl; [reflexivity|].
  intros [H1 H2]%andb_prop. rewrite (E _ H1). simpl. auto.
Qed.

(** ** The pattern matcher *)

Lemma plus_not_spec (set : list Re.cls) (k : string -> bool) (s : string) :
  Re.plus_not set k s = true <->
  exists a r, s = a ++ r /\ a <> ""
              /\ all_chars (fun c => negb (Re.in_set set c)) a = true
              /\ k r = true.
Proof.
  split.
  - induction s as [|d s IH]; simpl; [discriminate|].
    intros [Hd H]%andb_prop. apply orb_prop in H as [H|H].
    + destruct (IH H) as (a & r & -> & _ & Ha & Hk).
      exists (String d a), r. simpl. rewrite Hd, Ha.
      repeat split; auto. discriminate.
    + exists (String d ""), s. simpl. rewrite Hd.
      repeat split; auto. discriminate.
  - intros (a & r & -> & Hne & Ha & Hk).
    induction a as [|d a IH]; [congruence|].
    simpl in *. apply andb_prop in Ha as [Hd Ha]. rewrite Hd. simpl.
    destruct a as [|e a].
    + simpl. rewrite Hk. apply orb_true_r.
    + rewrite IH; auto. discriminate.
Qed.

Lemma at_eol_spec (s : string) :
  Re.at_eol s = true <-> s = "" \/ s = nl.
Proof.
  unfold nl. destruct s as [|c [|d s]]; simpl.
  - tauto.
  - rewrite Ascii.eqb_eq. split.
    + intros ->. now right.
    + intros [H|H]; congruence.
  - split; [discriminate|]. intros [H|H]; discriminate.
Qed.

Lemma owner_char_set (c : ascii) :
  negb (Re.in_set [Re.CChar slash; Re.CSpace; Re.CChar at_sign] c)
  = Shorthand.owner_char c.
Proof.
  unfold Re.in_set, Shorthand.owner_char. simpl.
  destruct (Ascii.eqb c slash), (Py.isspace c), (Ascii.eqb c at_sign);
    reflexivity.
Qed.

Lemma repo_char_set (c : ascii) :
  negb (Re.in_set [Re.CChar slash; Re.CSpace] c) = Shorthand.repo_char c.
Proof.
  unfold Re.in_set, Shorthand.repo_char. simpl.
  destruct (Ascii.eqb c slash), (Py.isspace c); reflexivity.
Qed.

Lemma append_assoc (a b c : string) : (a ++ b) ++ c = a ++ (b ++ c).
Proof. induction a as [|x a IH]; simpl; [reflexivity|now rewrite IH]. Qed.

Lemma append_nil_r (a : string) : a ++ "" = a.
Proof. induction a as [|x a IH]; simpl; [reflexivity|now rewrite IH]. Qed.

(** What [is_github] accepts: the shorthand, and the shorthand followed by
    one newline. *)
Lemma is_github_spec (url : string) :
  is_github url = true <->
  Shorthand.is_shorthand url
  \/ exists s, Shorthand.is_shorthand s /\ url = s ++ nl.
Proof.
  unfold is_github, Re.re_match, github_pattern.
  cbn [Re.match_here andb]. rewrite plus_not_spec. split.
  - intros (a & r & -> & Ha & Hall & Hk).
    destruct r as [|d r]; [discriminate|].
    apply andb_prop in Hk as [Hd Hk]. apply Ascii.eqb_eq in Hd. subst d.
    apply plus_not_spec in Hk as (b & t & -> & Hb & Hallb & Ht).
    rewrite andb_true_r in Ht. apply at_eol_spec in Ht.
    rewrite (all_chars_ext _ _ _ owner_char_set) in Hall.
    rewrite (all_chars_ext _ _ _ repo_char_set) in Hallb.
    assert (S0 : Shorthand.is_shorthand (a ++ String slash b))
      by (exists a, b; auto).
    destruct Ht as [-> | ->].
    + left. now rewrite append_nil_r.
    + right. exists (a ++ String slash b). split; [exact S0|].
      now rewrite append_assoc.
  - assert (K : forall a b t, a <> "" -> b <> "" ->
        all_chars Shorthand.owner_char a = true ->
        all_chars Shorthand.repo_char b = true ->
        (t = "" \/ t = nl) ->
        exists a0 r, a ++ String slash (b ++ t) = a0 ++ r /\ a0 <> "" /\
          all_chars (fun c => negb (Re.in_set
             [Re.CChar slash; Re.CSpace; Re.CChar at_sign] c)) a0 = true /\
          match r with
          | "" => false
          | String d s' =>
              (d =? slash)%char &&
              Re.plus_not [Re.CChar slash; Re.CSpace]
                (fun s => Re.at_eol s && true) s'
          end = true).
    { intros a b t Ha Hb Hall Hallb Ht. exists a, (String slash (b ++ t)).
      repeat split; auto.
      - now rewrite (all_chars_ext _ _ _ owner_char_set).
      - rewrite Ascii.eqb_refl. simpl. apply plus_not_spec.
        exists b, t. repeat split; auto.
        + now rewrite (all_chars_ext _ _ _ repo_char_set).
        + rewrite andb_true_r. now apply at_eol_spec. }
    intros [(a & b & -> & Ha & Hb & Hall & Hallb)
           | (s & (a & b & -> & Ha & Hb & Hall & Hallb) & ->)].
    + pose proof (K a b "" Ha Hb Hall Hallb (or_introl eq_refl)) as K'.
      now rewrite append_nil_r in K'.
    + rewrite append_assoc. simpl. apply K; auto.
Qed.

Lemma shorthand_no_space (s : string) :
  Shorthand.is_shorthand s ->
  all_chars (fun c => negb (Py.isspace c)) s = true.
Proof.
  intros (a & b & -> & _ & _ & Ha & Hb).
  rewrite all_chars_app. simpl. apply andb_true_intro. split.
  - revert Ha. apply all_chars_impl. unfold Shorthand.owner_char.
    intros c [[_ H]%andb_prop _]%andb_prop. exact H.
  - revert Hb. apply all_chars_impl. unfold Shorthand.repo_char.
    intros c [_ H]%andb_prop. exact H.
Qed.

(** The normalisation, for every string: the shorthand is rewritten, and so
    is the shorthand followed by one newline; nothing else is. *)
Lemma proper_url_spec (url : string) :
  (Shorthand.is_shorthand url -> _proper_url url = "git@github.com:" ++ url)
  /\ ((exists s, Shorthand.is_shorthand s /\ url = s ++ nl) ->
      _proper_url url = "git@github.com:" ++ url)
  /\ (~ Shorthand.is_shorthand url ->
      ~ (exists s, Shorthand.is_shorthand s /\ url = s ++ nl) ->
      _proper_url url = url).
Proof.
  unfold _proper_url. pose proof (is_github_spec url) as G.
  destruct (is_github url).
  - split; [reflexivity|]. split; [reflexivity|]. intros N1 N2.
    destruct (proj1 G eq_refl); contradiction.
  - split; [|split].
    + intros H. assert (false = true) by (apply G; auto). discriminate.
    + intros H. assert (false = true) by (apply G; auto). discriminate.
    + reflexivity.
Qed.

(** ** Access to the git-flow handle *)

Lemma repo_attr_ready (T : Tools) (st : State) :
  ready st = true ->
  exists g, repo_attr T st
            = {| result := Ret g; after := warm st; emitted := [] |}.
Proof.
  intros R. unfold warm. split_state st; use_ready R; eexists; reflexivity.
Qed.

(** ** Synchronization: [merge_from_remote] *)

(** C1. On a repository whose head is detached, and on one whose active
    branch already contains its effective remote ref (the tracking branch
    if there is one, else the branch itself), [merge_from_remote] returns
    normally without doing anything: no message, no stash, no rebase, and
    the working copy is left as it was. *)
Theorem merge_from_remote_nothing_to_do (T : Tools) (st : State) :
  ready st = true ->
  ((exists sha, head (world st) = Detached sha)
   \/ (exists l t h, head (world st) = Attached l t h
                     /\ is_merged_into (world st) (effective_remote l t) l
                        = true)) ->
  result (merge_from_remote T st) = Ret tt
  /\ emitted (merge_from_remote T st) = []
  /\ world (after (merge_from_remote T st)) = world st.
Proof.
  intros R H. split_state st; use_ready R.
  all: destruct H as [(sha & ->) | (l & t & h & -> & Mg)]; run_ops.
  all: try rewrite Mg; auto.
Qed.

Lemma merge_from_remote_nothing_to_do_witness :
  (let st := Scenario.state (Detached "9a0c") "" false in
   result (merge_from_remote Scenario.tools st) = Ret tt
   /\ emitted (merge_from_remote Scenario.tools st) = []
   /\ world (after (merge_from_remote Scenario.tools st)) = world st)
  /\
  (let st := Scenario.state Scenario.on_develop (" M setup.py" ++ NUL) true in
   result (merge_from_remote Scenario.tools st) = Ret tt
   /\ emitted (merge_from_remote Scenario.tools st) = []
   /\ world (after (merge_from_remote Scenario.tools st)) = world st).
Proof.
  split.
  - apply (merge_from_remote_nothing_to_do Scenario.tools
             (Scenario.state (Detached "9a0c") "" false)).
    + reflexivity.
    + left. exists "9a0c". reflexivity.
  - apply (merge_from_remote_nothing_to_do Scenario.tools
             (Scenario.state Scenario.on_develop (" M setup.py" ++ NUL) true)).
    + reflexivity.
    + right. exists "develop", (Some "origin/develop"), "9a0c".
      split; reflexivity.
Defined.



(** A conflicting re-application in full: the stash, the rebase and the
    attempt to re-apply are all made, and the operation returns normally. *)
Example merge_from_remote_conflict_suppressed :
  let st := Scenario.state Scenario.on_develop (" M setup.py" ++ NUL) false in
  let o := merge_from_remote Scenario.conflicting_tools st in
  result o = Ret tt
  /\ emitted o
     = [Message "Changes found in zendev:origin/develop! Rebasing develop...";
        Run GitStash; Run (GitRebase "origin/develop"); Run GitStashApply].
Proof. split; reflexivity. Qed.

(** ** Synchronization: [push] *)

Lemma push_message_line_count (output display local_name : string) :
  push_message output display local_name
  = Py.str_of_nat (line_count output) ++ " local commits in "
      ++ display ++ ":" ++ local_name ++ " need to be pushed.  Pushing...".
Proof.
  unfold push_message, line_count. now rewrite split_length.
Qed.

Lemma push_ready (T : Tools) (st : State) :
  ready st = true ->
  emitted (push T st) = push_trace (name (self st)) (world st)
  /\ (push_trace (name (self st)) (world st) = [] ->
      result (push T st) = Ret tt).
Proof.
  intros R. unfold push_trace. split_state st; use_ready R.
  all: destruct hd as [l t h | sha]; run_ops; auto.
  all: destruct (rl l) as [|c s] eqn:O; run_ops; auto.
  all: rewrite <- push_message_line_count; fold (Py.truthy (String c s)).
  all: cbn [Py.truthy]; step_exec T; split; auto; discriminate.
Qed.

(** C3. With an attached head, [push] issues the push of the active branch
    to [origin] exactly when [git rev-list <branch> --not --remotes] prints
    something, and the number it announces is the number of lines of that
    output; when the output is empty, and when the head is detached, it
    returns normally having pushed and printed nothing. *)
Theorem push_iff_unpushed_commits (T : Tools) (st : State) :
  ready st = true ->
  (forall l t h,
     head (world st) = Attached l t h ->
     (In (Run (GitPush (origin (world st)) l)) (emitted (push T st))
      <-> rev_list (world st) l <> "")
     /\ (rev_list (world st) l <> "" ->
         emitted (push T st)
         = [Message (Py.str_of_nat (line_count (rev_list (world st) l))
                       ++ " local commits in " ++ name (self st) ++ ":" ++ l
                       ++ " need to be pushed.  Pushing...");
            Run (GitPush (origin (world st)) l)])
     /\ (rev_list (world st) l = "" ->
         result (push T st) = Ret tt /\ emitted (push T st) = []))
  /\ (forall sha,
        head (world st) = Detached sha ->
        result (push T st) = Ret tt /\ emitted (push T st) = []).
Proof.
  intros R. destruct (push_ready T st R) as [E N]. rewrite E.
  unfold push_trace in *. split.
  - intros l t h Hd. rewrite Hd in *.
    destruct (rev_list (world st) l) as [|c s] eqn:O.
    + split; [|split].
      * split; [intros []|congruence].
      * congruence.
      * auto.
    + split; [|split].
      * split; [discriminate|]. intros _. cbn [In]. right. left. reflexivity.
      * reflexivity.
      * discriminate.
  - intros sha Hd. rewrite Hd in *. auto.
Qed.

Lemma push_iff_unpushed_commits_witness :
  let st := Scenario.state Scenario.on_develop "" false in
  let T := Scenario.tools in
  (forall l t h,
     head (world st) = Attached l t h ->
     (In (Run (GitPush (origin (world st)) l)) (emitted (push T st))
      <-> rev_list (world st) l <> "")
     /\ (rev_list (world st) l <> "" ->
         emitted (push T st)
         = [Message (Py.str_of_nat (line_count (rev_list (world st) l))
                       ++ " local commits in " ++ name (self st) ++ ":" ++ l
                       ++ " need to be pushed.  Pushing...");
            Run (GitPush (origin (world st)) l)])
     /\ (rev_list (world st) l = "" ->
         result (push T st) = Ret tt /\ emitted (push T st) = []))
  /\ (forall sha,
        head (world st) = Detached sha ->
        result (push T st) = Ret tt /\ emitted (push T st) = []).
Proof.
  apply (push_iff_unpushed_commits Scenario.tools
           (Scenario.state Scenario.on_develop "" false)).
  reflexivity.
Defined.

(** Two local commits are announced as two and pushed. *)
Example push_two_commits :
  emitted (push Scenario.tools (Scenario.state Scenario.on_develop "" false))
  = [Message "2 local commits in zendev:develop need to be pushed.  Pushing...";
     Run (GitPush "origin" "develop")].
Proof. reflexivity. Qed.

(** ** State inspection: [changes] *)

Lemma fold_changes_step (codes : list string) (a b c : bool) :
  fold_left changes_step codes (a, b, c)
  = (a || existsb Status.staged_code codes,
     b || existsb Status.unstaged_code codes,
     c || existsb Status.untracked_code codes).
Proof.
  revert a b c. induction codes as [|x codes IH]; intros a b c; simpl.
  - now rewrite !orb_false_r.
  - unfold Status.staged_code, Status.unstaged_code, Status.untracked_code.
    destruct (Py.startswith "?" x) eqn:Q;
      [|destruct (Py.startswith " " x) eqn:B;
        [|destruct (Py.truthy x) eqn:N]];
      rewrite IH; cbn;
      unfold Status.staged_code, Status.unstaged_code, Status.untracked_code;
      rewrite ?andb_false_r, ?orb_true_r, ?orb_false_r; cbn;
      try reflexivity.
    destruct x as [|y x]; [discriminate|]. cbn in *.
    destruct (Ascii.eqb_spec y "?"); [|discriminate].
    destruct (Ascii.eqb_spec y " "); [congruence|]. reflexivity.
Qed.

Lemma parse_changes_entrywise (status : string) :
  parse_changes status
  = (existsb Status.staged_code (map Status.code (Status.entries status)),
     existsb Status.unstaged_code (map Status.code (Status.entries status)),
     existsb Status.untracked_code (map Status.code (Status.entries status))).
Proof.
  unfold parse_changes. now rewrite fold_changes_step.
Qed.

Lemma status_codes_exclusive (c : string) :
  (Status.untracked_code c = true ->
   Status.unstaged_code c = false /\ Status.staged_code c = false)
  /\ (Status.unstaged_code c = true ->
      Status.untracked_code c = false /\ Status.staged_code c = false)
  /\ (Status.staged_code c = true ->
      Status.untracked_code c = false /\ Status.unstaged_code c = false).
Proof.
  unfold Status.staged_code, Status.unstaged_code, Status.untracked_code.
  destruct c as [|y c]; cbn; [intuition discriminate|].
  destruct (Ascii.eqb_spec y "?"), (Ascii.eqb_spec y " "); cbn;
    try intuition discriminate.
  subst. discriminate.
Qed.

(** The entries of a status output made of one record [XY name]. *)
Lemma lone_entry (x y : ascii) (name : string) :
  Py.count Py.nul name = 0 ->
  x <> Py.nul -> y <> Py.nul ->
  map Status.code
    (Status.entries (String x (String y (String " " name)) ++ NUL))
  = [String x (String y ""); ""].
Proof.
  intros Hn Hx Hy. unfold Status.entries, NUL.
  rewrite split_app_sep.
  - reflexivity.
  - cbn [Py.count].
    rewrite (proj2 (Ascii.eqb_neq x Py.nul) Hx).
    rewrite (proj2 (Ascii.eqb_neq y Py.nul) Hy). exact Hn.
Qed.

(** C4. [changes] parses the short status output entry by entry: a status
    code that begins with [?] raises only the untracked flag, one whose
    first column is blank only the unstaged flag, any other non-empty code
    only the staged flag, so that each flag tells whether some entry is of
    its class. In particular a lone untracked file gives
    [(False, False, True)], a lone staged addition [(True, False, False)],
    a lone unstaged modification [(False, True, False)] and a clean tree
    [(False, False, False)]. *)
Theorem changes_classifies_entries
    (T : Tools) (st : State) (file : string) :
  ready st = true ->
  memo_changes (memo (self st)) = None ->
  Py.count Py.nul file = 0 ->
  result (changes T st) = Ret (parse_changes (status_z (world st)))
  /\ (forall status,
        let codes := map Status.code (Status.entries status) in
        parse_changes status
        = (existsb Status.staged_code codes,
           existsb Status.unstaged_code codes,
           existsb Status.untracked_code codes))
  /\ (forall staged unstaged untracked c,
        changes_step (staged, unstaged, untracked) c
        = if Status.untracked_code c then (staged, unstaged, true)
          else if Status.unstaged_code c then (staged, true, untracked)
          else if Status.staged_code c then (true, unstaged, untracked)
          else (staged, unstaged, untracked))
  /\ parse_changes ("?? " ++ file ++ NUL) = (false, false, true)
  /\ parse_changes ("A  " ++ file ++ NUL) = (true, false, false)
  /\ parse_changes (" M " ++ file ++ NUL) = (false, true, false)
  /\ parse_changes "" = (false, false, false).
Proof.
  intros R Hm Hn. repeat split.
  - clear Hn. split_state st; use_ready R; subst; run_ops; reflexivity.
  - intros status. apply parse_changes_entrywise.
  - intros a b c x. unfold changes_step, Status.staged_code,
      Status.unstaged_code, Status.untracked_code.
    destruct (Py.startswith "?" x), (Py.startswith " " x), (Py.truthy x);
      reflexivity.
  - rewrite parse_changes_entrywise.
    change ("?? " ++ file ++ NUL)
      with (String "?" (String "?" (String " " file)) ++ NUL).
    rewrite lone_entry; [reflexivity | assumption | discriminate..].
  - rewrite parse_changes_entrywise.
    change ("A  " ++ file ++ NUL)
      with (String "A" (String " " (String " " file)) ++ NUL).
    rewrite lone_entry; [reflexivity | assumption | discriminate..].
  - rewrite parse_changes_entrywise.
    change (" M " ++ file ++ NUL)
      with (String " " (String "M" (String " " file)) ++ NUL).
    rewrite lone_entry; [reflexivity | assumption | discriminate..].
Qed.

Lemma changes_classifies_entries_witness :
  let T := Scenario.tools in
  let st := Scenario.state Scenario.on_develop ("?? notes.txt" ++ NUL) false in
  let file := "setup.py" in
  result (changes T st) = Ret (parse_changes (status_z (world st)))
  /\ (forall status,
        let codes := map Status.code (Status.entries status) in
        parse_changes status
        = (existsb Status.staged_code codes,
           existsb Status.unstaged_code codes,
           existsb Status.untracked_code codes))
  /\ (forall staged unstaged untracked c,
        changes_step (staged, unstaged, untracked) c
        = if Status.untracked_code c then (staged, unstaged, true)
          else if Status.unstaged_code c then (staged, true, untracked)
          else if Status.staged_code c then (true, unstaged, untracked)
          else (staged, unstaged, untracked))
  /\ parse_changes ("?? " ++ file ++ NUL) = (false, false, true)
  /\ parse_changes ("A  " ++ file ++ NUL) = (true, false, false)
  /\ parse_changes (" M " ++ file ++ NUL) = (false, true, false)
  /\ parse_changes "" = (false, false, false).
Proof.
  apply (changes_classifies_entries Scenario.tools
           (Scenario.state Scenario.on_develop ("?? notes.txt" ++ NUL) false)
           "setup.py").
  - reflexivity.
  - reflexivity.
  - reflexivity.
Defined.

(** ** The feature-branch lifecycle: [create_feature] *)

(** In the state [Both], as read from the working copy, nothing is done. *)
Lemma create_feature_both (T : Tools) (st : State) (name : string) :
  ready st = true ->
  memo_local_branches (memo (self st)) = None ->
  memo_remote_branches (memo (self st)) = None ->
  feature_state (world st) name = Both ->
  result (create_feature T name st) = Ret tt
  /\ emitted (create_feature T name st) = [].
Proof.
  intros R L M B. unfold feature_state in B.
  split_state st; use_ready R; subst; run_ops.
  all: destruct (mem ("feature/" ++ name) (bn false)),
                (mem ("origin/feature/" ++ name) (bn true));
    try discriminate; auto.
Qed.

Lemma create_feature_trace (T : Tools) (st : State) (name : string) :
  ready st = true ->
  memo_local_branches (memo (self st)) = None ->
  memo_remote_branches (memo (self st)) = None ->
  tools_reconcile T name ->
  emitted (create_feature T name st)
  = reconciliation (feature_state (world st) name) name
  /\ result (create_feature T name st) = Ret tt
  /\ feature_state (world (after (create_feature T name st))) name = Both.
Proof.
  intros R L M H. unfold feature_state, reconciliation.
  destruct (mem ("feature/" ++ name) (branch_names (world st) false)) eqn:EL,
    (mem ("origin/feature/" ++ name) (branch_names (world st) true)) eqn:ER.
  - split_state st; use_ready R; subst; run_ops; settle EL ER; auto.
  - split_state st; use_ready R; subst; run_ops; settle EL ER.
    all: tool_step T P (proj1 (proj2 H)).
    all: destruct (P EL) as (-> & P1 & P2); run_ops; rewrite P1, P2; auto.
  - split_state st; use_ready R; subst; run_ops; settle EL ER.
    all: tool_step T P (proj1 H).
    all: destruct (P ER) as (-> & P1 & P2); run_ops; rewrite P1, P2; auto.
  - split_state st; use_ready R; subst; run_ops; settle EL ER.
    all: tool_step T P (proj2 (proj2 H)).
    all: destruct P as (-> & P1); run_ops.
    all: tool_step T Q (proj1 (proj2 H)).
    all: destruct (Q P1) as (-> & Q1 & Q2); run_ops; rewrite Q1, Q2; auto.
Qed.

(** On the same instance a second call re-reads nothing: it takes the
    branch of the first call again and, the tools doing their part, issues
    the same commands. *)
Lemma create_feature_repeats (T : Tools) (st : State) (name : string) :
  ready st = true ->
  memo_local_branches (memo (self st)) = None ->
  memo_remote_branches (memo (self st)) = None ->
  tools_reconcile T name ->
  emitted (create_feature T name (after (create_feature T name st)))
  = emitted (create_feature T name st).
Proof.
  intros R L M H.
  destruct (mem ("feature/" ++ name) (branch_names (world st) false)) eqn:EL,
    (mem ("origin/feature/" ++ name) (branch_names (world st) true)) eqn:ER.
  - split_state st; use_ready R; subst; run_ops; settle EL ER; auto.
  - split_state st; use_ready R; subst; run_ops; settle EL ER.
    all: tool_step T P (proj1 (proj2 H)).
    all: destruct (P EL) as (-> & P1 & P2); run_ops; settle EL ER.
    all: tool_step T Q (proj1 (proj2 H)).
    all: destruct (Q P1) as (-> & Q1 & Q2); run_ops; reflexivity.
  - split_state st; use_ready R; subst; run_ops; settle EL ER.
    all: tool_step T P (proj1 H).
    all: destruct (P ER) as (-> & P1 & P2); run_ops; settle EL ER.
    all: tool_step T Q (proj1 H).
    all: destruct (Q P2) as (-> & Q1 & Q2); run_ops; reflexivity.
  - split_state st; use_ready R; subst; run_ops; settle EL ER.
    all: tool_step T P (proj2 (proj2 H)).
    all: destruct P as (-> & P1); run_ops.
    all: tool_step T Q (proj1 (proj2 H)).
    all: destruct (Q P1) as (-> & Q1 & Q2); run_ops; settle EL ER.
    all: tool_step T P' (proj2 (proj2 H)).
    all: destruct P' as (-> & P1'); run_ops.
    all: tool_step T Q' (proj1 (proj2 H)).
    all: destruct (Q' P1') as (-> & Q1' & Q2'); run_ops; reflexivity.
Qed.

Lemma mem_In (a : string) (l : list string) : mem a l = true <-> In a l.
Proof.
  unfold mem. rewrite existsb_exists. split.
  - intros (x & Hx & E). apply String.eqb_eq in E. now subst.
  - intros H. exists a. split; [exact H|apply String.eqb_refl].
Qed.

Lemma mem_add (a b : string) (l : list string) :
  mem a (Scenario.add b l) = true <-> a = b \/ mem a l = true.
Proof.
  unfold Scenario.add. destruct (mem b l) eqn:E.
  - split; [auto|]. intros [->|H]; auto.
  - cbn. rewrite orb_true_iff, String.eqb_eq. tauto.
Qed.

Lemma mem_fold_add (a : string) (l xs : list string) :
  mem a l = true \/ In a xs ->
  mem a (fold_right Scenario.add l xs) = true.
Proof.
  induction xs as [|x xs IH]; cbn.
  - tauto.
  - intros H. apply mem_add. destruct H as [H|[H|H]]; auto.
Qed.

Lemma substring_full (s : string) : substring 0 (String.length s) s = s.
Proof. induction s as [|c s IH]; cbn; [reflexivity|now rewrite IH]. Qed.

Lemma local_of_origin (b : string) : Scenario.local_of ("origin/" ++ b) = [b].
Proof.
  unfold Scenario.local_of. cbn. rewrite Nat.sub_0_r.
  destruct b; cbn; [reflexivity|]. now rewrite substring_full.
Qed.

(** The tools of the scenarios behave as the specification expects. *)
Lemma well_behaved_reconcile (name : string) :
  tools_reconcile Scenario.tools name.
Proof.
  unfold tools_reconcile. cbn [exec Scenario.tools]. repeat split;
    cbn [Scenario.well_behaved fst snd Scenario.with_branches branch_names];
    auto.
  - apply mem_fold_add. right. apply in_flat_map.
    exists ("origin/" ++ ("feature/" ++ name)). split.
    + apply mem_In. exact H.
    + rewrite local_of_origin. now left.
  - apply mem_add. now left.
  - apply mem_add. now left.
Qed.

(** C5, as stated, fails: on a fresh instance whose repository has neither
    branch, with tools that work, the first call starts and publishes the
    feature and leaves the repository in the state [Both]; the second call
    on the same instance reads the branch lists the first call memoized,
    finds the feature absent again, and starts and publishes it again. *)
Lemma create_feature_second_call_repeats : ~ second_call_is_noop.
Proof.
  intros H.
  destruct (H Scenario.tools (Scenario.state Scenario.on_develop "" false) "x"
              eq_refl eq_refl eq_refl (well_behaved_reconcile "x"))
    as (_ & _ & E).
  vm_compute in E. discriminate E.
Qed.

Example create_feature_twice :
  let st := Scenario.state Scenario.on_develop "" false in
  let first := create_feature Scenario.tools "x" st in
  let second := create_feature Scenario.tools "x" (after first) in
  feature_state (world st) "x" = Absent
  /\ feature_state (world (after first)) "x" = Both
  /\ emitted first = [Run (FlowCreate "feature" "x" None);
                      Run (FlowPublish "feature" "x")]
  /\ emitted second = [Run (FlowCreate "feature" "x" None);
                       Run (FlowPublish "feature" "x")].
Proof. repeat split; reflexivity. Qed.

(** C5, amended. On an instance that has not read its branch lists yet,
    [create_feature] performs exactly the action of the state of the
    feature - both: nothing; remote only: a fetch; local only: publishing;
    absent: starting it with no base, then publishing - and, the tools
    doing their part, leaves the repository in the state [Both]. A call
    that reads the branch lists in that state, on a fresh instance, does
    nothing; an immediate second call on the same instance uses the lists
    the first call memoized and repeats its action. *)
Theorem create_feature_reconciles (T : Tools) (st : State) (name : string) :
  ready st = true ->
  memo_local_branches (memo (self st)) = None ->
  memo_remote_branches (memo (self st)) = None ->
  tools_reconcile T name ->
  emitted (create_feature T name st)
  = reconciliation (feature_state (world st) name) name
  /\ result (create_feature T name st) = Ret tt
  /\ feature_state (world (after (create_feature T name st))) name = Both
  /\ (forall st',
        ready st' = true ->
        memo_local_branches (memo (self st')) = None ->
        memo_remote_branches (memo (self st')) = None ->
        world st' = world (after (create_feature T name st)) ->
        result (create_feature T name st') = Ret tt
        /\ emitted (create_feature T name st') = [])
  /\ emitted (create_feature T name (after (create_feature T name st)))
     = emitted (create_feature T name st).
Proof.
  intros R L M H.
  destruct (create_feature_trace T st name R L M H) as (E1 & E2 & E3).
  split; [exact E1|]. split; [exact E2|]. split; [exact E3|]. split.
  - intros st' R' L' M' W. apply create_feature_both; auto.
    rewrite W. exact E3.
  - now apply create_feature_repeats.
Qed.

Lemma create_feature_reconciles_witness :
  let T := Scenario.tools in
  let st := Scenario.state Scenario.on_develop "" false in
  emitted (create_feature T "x" st)
  = reconciliation (feature_state (world st) "x") "x"
  /\ result (create_feature T "x" st) = Ret tt
  /\ feature_state (world (after (create_feature T "x" st))) "x" = Both
  /\ (forall st',
        ready st' = true ->
        memo_local_branches (memo (self st')) = None ->
        memo_remote_branches (memo (self st')) = None ->
        world st' = world (after (create_feature T "x" st)) ->
        result (create_feature T "x" st') = Ret tt
        /\ emitted (create_feature T "x" st') = [])
  /\ emitted (create_feature T "x" (after (create_feature T "x" st)))
     = emitted (create_feature T "x" st).
Proof.
  apply (create_feature_reconciles Scenario.tools
           (Scenario.state Scenario.on_develop "" false) "x").
  - reflexivity.
  - reflexivity.
  - reflexivity.
  - apply well_behaved_reconcile.
Defined.

(** ** URL normalisation: [_proper_url] *)

(** C9 does not hold of the code at a shorthand followed by a newline:
    [$] also matches just before a final newline, so the string, which
    contains white space and therefore is not of the shorthand shape, is
    accepted by [is_github] and rewritten instead of being passed
    through. *)
Theorem proper_url_trailing_newline :
  ~ Shorthand.is_shorthand ("zenoss/zendev" ++ nl)
  /\ is_github ("zenoss/zendev" ++ nl) = true
  /\ _proper_url ("zenoss/zendev" ++ nl)
     = "git@github.com:zenoss/zendev" ++ nl.
Proof.
  split; [|split; reflexivity].
  intros S. apply shorthand_no_space in S. discriminate S.
Qed.

(** ** Clone: [clone] *)

(** C7. When something exists at the path of the repository, [clone]
    raises the exception that says so and does nothing else: no directory
    is made, no clone is started, the instance and the working copy are
    unchanged. Otherwise it first makes the parent directories and, that
    done, clones the remote URL, at the ref when there is one and at depth
    one when shallow. *)
Theorem clone_refuses_existing_path (T : Tools) (st : State) (shallow : bool) :
  if path_check (world st) then
    result (clone T shallow st)
    = Raise (PyException ("Something already exists at " ++ path (self st)
                            ++ ". Remove it first."))
    /\ emitted (clone T shallow st) = []
    /\ after (clone T shallow st) = st
  else
    exists rest,
      emitted (clone T shallow st) = Run (EnsureDir (path (self st))) :: rest
      /\ (fst (exec T (EnsureDir (path (self st))) (world st)) = None ->
          exists rest',
            rest = Run (CloneFrom (url (self st)) (path (self st))
                          (if shallow then Some 1 else None)
                          (if Py.truthy (ref (self st))
                           then Some (ref (self st)) else None))
                     :: rest').
Proof.
  destruct st as [[nm pth rn u rf hdl mm] [pc igr ii hd sz bn tg imi rl og ru]].
  destruct shallow; run_ops; (destruct pc; [repeat split|]).
  all: step_exec T;
    [eexists; split; [reflexivity|]; cbn [fst]; discriminate|].
  all: repeat first
         [ step_exec T
         | match goal with
           | |- context [match ?e with GitCommandError => _ | _ => _ end] =>
               destruct e; run_ops
           | |- context [if ?b then _ else _] => destruct b; run_ops
           end ].
  all: eexists; (split; [reflexivity|]); intros _; eexists; reflexivity.
Qed.

(** ** Detached head *)

(** C8. On a repository whose head is detached, the properties [branch]
    and [hash], read for the first time, both return the commit the head
    resolves to, and [merge_from_remote] and [push] return normally having
    done nothing. *)
Theorem detached_head_is_not_an_error
    (T : Tools) (st : State) (sha : string) :
  ready st = true ->
  head (world st) = Detached sha ->
  memo_branch (memo (self st)) = None ->
  memo_hash (memo (self st)) = None ->
  (result (branch T st) = Ret (Some sha)
   /\ result (hash T st) = Ret (Some sha))
  /\ (result (merge_from_remote T st) = Ret tt
      /\ emitted (merge_from_remote T st) = [])
  /\ (result (push T st) = Ret tt /\ emitted (push T st) = []).
Proof.
  intros R H B Hh. split_state st; use_ready R; subst; run_ops.
  all: repeat split.
Qed.

Lemma detached_head_is_not_an_error_witness :
  let T := Scenario.tools in
  let st := Scenario.state (Detached "9a0c") "" false in
  (result (branch T st) = Ret (Some "9a0c")
   /\ result (hash T st) = Ret (Some "9a0c"))
  /\ (result (merge_from_remote T st) = Ret tt
      /\ emitted (merge_from_remote T st) = [])
  /\ (result (push T st) = Ret tt /\ emitted (push T st) = []).
Proof.
  apply (detached_head_is_not_an_error Scenario.tools
           (Scenario.state (Detached "9a0c") "" false) "9a0c").
  - reflexivity.
  - reflexivity.
  - reflexivity.
  - reflexivity.
Defined.

(** The property [remote_branch] is not among the operations of C8: it
    reads the active branch outside any [try] and raises on a detached
    head. *)
Example remote_branch_detached :
  result (remote_branch Scenario.tools
            (Scenario.state (Detached "9a0c") "" false))
  = Raise TypeError.
Proof. reflexivity. Qed.

(** ** The pull-request workflow: [create_pull_request] *)

(** C6. When the flags of [changes] say that there are unstaged changes,
    [create_pull_request] reports the error and returns: nothing is
    pushed, nothing is posted. When they do not - whatever the staged and
    untracked flags - it goes on: the remote URL yielding an owner and a
    repository and the push not failing, it performs the push, the pause
    and the announcement and posts the request for [feature/<name>]. *)
Theorem create_pull_request_unstaged_guard
    (T : Tools) (st : State) (feature body base : string)
    (staged unstaged untracked : bool) :
  ready st = true ->
  result (changes T st) = Ret (staged, unstaged, untracked) ->
  if unstaged then
    result (create_pull_request T feature body base st) = Ret tt
    /\ emitted (create_pull_request T feature body base st)
       = [LogError ("uncommited changes in: " ++ name (self st))]
  else
    forall owner repo,
      owner_repo (remote_url (world st)) = Ret (owner, repo) ->
      (forall r b w, fst (exec T (GitPush r b) w) = None) ->
      exists rest,
        emitted (create_pull_request T feature body base st)
        = (push_trace (name (self st)) (world st)
           ++ [Sleep 1; Message "Posting pull request";
               Post ("/repos/" ++ owner ++ "/" ++ repo ++ "/pulls")
                 {| pull_title := "Please review branch feature/" ++ feature;
                    pull_body := body;
                    pull_head := "feature/" ++ feature;
                    pull_base := base |}]
           ++ rest)%list.
Proof.
  intros R C. destruct unstaged.
  - split_state st; use_ready R; destruct mc as [f0|]; run_ops;
      injection C as C; try subst f0; try rewrite C; run_ops; auto.
  - intros owner repo O P. unfold push_trace.
    split_state st; use_ready R; destruct mc as [f0|]; run_ops;
      injection C as C; try subst f0; try rewrite C; run_ops.
    all: rewrite O; run_ops.
    all: destruct hd as [l t h|sha]; run_ops.
    all: try (destruct (rl l) as [|c s] eqn:O'; run_ops).
    all: cbn [Py.truthy]; run_ops.
    all: try (step_exec T;
              [match goal with
               | E : exec _ (GitPush ?r ?b) ?w = _ |- _ =>
                   specialize (P r b w); rewrite E in P; discriminate P
               end|]).
    all: match goal with
         | |- context [perform ?T ?w ?e ?d] =>
             destruct (perform T w e d) as [resp|err]; run_ops
         end.
    all: try match goal with
         | |- context [handle_response ?T ?r ?s] =>
             destruct (handle_response T r s) as [? ? ?]; run_ops
         end.
    all: rewrite <- ?push_message_line_count.
    all: eexists; cbn [app]; reflexivity.
Qed.

Lemma create_pull_request_unstaged_guard_witness :
  (let st := Scenario.state Scenario.on_develop (" M setup.py" ++ NUL) false in
   result (create_pull_request Scenario.tools "x" "" "develop" st) = Ret tt
   /\ emitted (create_pull_request Scenario.tools "x" "" "develop" st)
      = [LogError ("uncommited changes in: " ++ name (self st))])
  /\
  (let st := Scenario.state Scenario.on_develop
               ("A  setup.py" ++ NUL ++ "?? notes.txt" ++ NUL) false in
   exists rest,
     emitted (create_pull_request Scenario.tools "x" "" "develop" st)
     = (push_trace (name (self st)) (world st)
        ++ [Sleep 1; Message "Posting pull request";
            Post ("/repos/" ++ "zenoss" ++ "/" ++ "zendev" ++ "/pulls")
              {| pull_title := "Please review branch feature/" ++ "x";
                 pull_body := "";
                 pull_head := "feature/" ++ "x";
                 pull_base := "develop" |}]
        ++ rest)%list).
Proof.
  split.
  - apply (create_pull_request_unstaged_guard Scenario.tools
             (Scenario.state Scenario.on_develop (" M setup.py" ++ NUL) false)
             "x" "" "develop" false true false).
    + reflexivity.
    + reflexivity.
  - apply (create_pull_request_unstaged_guard Scenario.tools
             (Scenario.state Scenario.on_develop
                ("A  setup.py" ++ NUL ++ "?? notes.txt" ++ NUL) false)
             "x" "" "develop" true false true eq_refl eq_refl
             "zenoss" "zendev").
    + reflexivity.
    + intros r b w. reflexivity.
Defined.

(** With a staged and an untracked file only, the request is posted to the
    repository named by the remote URL. *)
Example create_pull_request_posts :
  let st := Scenario.state Scenario.on_develop
              ("A  setup.py" ++ NUL ++ "?? notes.txt" ++ NUL) false in
  owner_repo (remote_url (world st)) = Ret ("zenoss", "zendev")
  /\ In (Post "/repos/zenoss/zendev/pulls"
           {| pull_title := "Please review branch feature/x";
              pull_body := "";
              pull_head := "feature/x";
              pull_base := "develop" |})
        (emitted (create_pull_request Scenario.tools "x" "" "develop" st)).
Proof. split; [reflexivity|]. vm_compute. tauto. Qed.

(** *** The answer of the hosting API *)

Lemma bind_ret_eq {A B} (m : M A) (f : A -> M B) (st st' : State)
    (a : A) (es : list event) :
  m st = {| result := Ret a; after := st'; emitted := es |} ->
  bind m f st
  = match f a st' with
    | {| result := r; after := s; emitted := es' |} =>
        {| result := r; after := s; emitted := (es ++ es')%list |}
    end.
Proof. intros E. unfold bind. now rewrite E. Qed.

Lemma report_errors (T : Tools) (errors : list Json) (st : State) :
  forallb is_dict errors = true ->
  for_each errors
    (fun e => bind (py_get e "message" (JStr (json_dumps T e)))
                (fun v => error ("Error: " ++ format_s T v))) st
  = {| result := Ret tt; after := st; emitted := map (error_line T) errors |}.
Proof.
  induction errors as [|e errors IH]; intros H.
  - reflexivity.
  - cbn in H. apply andb_prop in H as [D H].
    destruct e; try discriminate.
    cbn [for_each]. erewrite bind_ret_eq; [|reflexivity].
    rewrite (IH H). reflexivity.
Qed.

Lemma handle_response_success (T : Tools) (st : State)
    (fields : list (string * Json)) (v : Json) :
  lookup "html_url" fields = Some v ->
  handle_response T (JDict fields) st
  = {| result := Ret tt; after := st;
       emitted := [LogInfo ("Pull Request: " ++ format_s T v)] |}.
Proof.
  intros H. cbv [handle_response py_in py_getitem]. run_ops.
  rewrite H. run_ops. reflexivity.
Qed.

Lemma handle_response_validation (T : Tools) (st : State)
    (fields : list (string * Json)) (errors : list Json) :
  lookup "html_url" fields = None ->
  lookup "message" fields = Some (JStr "Validation Failed") ->
  lookup "errors" fields = Some (JList errors) ->
  forallb is_dict errors = true ->
  handle_response T (JDict fields) st
  = {| result := Ret tt; after := st; emitted := map (error_line T) errors |}.
Proof.
  intros H M E D. unfold handle_response.
  erewrite bind_ret_eq; [|cbv [py_in ret]; rewrite H; reflexivity].
  cbv [is_some].
  erewrite bind_ret_eq; [|cbv [py_getitem ret]; rewrite M; reflexivity].
  cbv [is_str]. cbn [String.eqb Ascii.eqb Bool.eqb].
  erewrite bind_ret_eq; [|cbv [py_getitem ret]; rewrite E; reflexivity].
  erewrite bind_ret_eq; [|reflexivity].
  rewrite (report_errors T errors st D). reflexivity.
Qed.

Lemma handle_response_reports (T : Tools) (st : State) (response : Json) :
  emitted (handle_response T response st) <> [] ->
  exists fields,
    response = JDict fields
    /\ (lookup "html_url" fields <> None
        \/ lookup "message" fields = Some (JStr "Validation Failed")).
Proof.
  unfold handle_response. destruct response as [| b | n | s | items | fields].
  all: cbv [py_in py_getitem]; run_ops; try congruence.
  - destruct (index 0 "html_url" s); run_ops; congruence.
  - destruct (existsb (is_str "html_url") items); run_ops; congruence.
  - intros H. exists fields. split; [reflexivity|].
    destruct (lookup "html_url" fields) as [v|]; [left; discriminate|].
    right. revert H. run_ops.
    destruct (lookup "message" fields) as [m|]; run_ops; [|congruence].
    destruct (is_str "Validation Failed" m) eqn:V; run_ops; [|congruence].
    intros _. destruct m; try discriminate. cbn in V.
    apply String.eqb_eq in V. now subst.
Qed.

(** C10. When the hosting API answers the request with an object that has
    neither an [html_url] nor a [message] field, [create_pull_request]
    ends with the key error of [response['message']], after the push (if
    any was due), the pause, the announcement and the post, and reports
    neither success nor a validation failure. The two expected answers are
    handled: an object with [html_url] is reported as the pull request,
    a ["Validation Failed"] with an array of error objects is reported
    entry by entry; and nothing is ever reported for an answer of another
    shape. *)
Theorem create_pull_request_unexpected_response
    (T : Tools) (st : State) (feature body base : string)
    (staged untracked : bool) (owner repo : string)
    (fields : list (string * Json)) :
  ready st = true ->
  result (changes T st) = Ret (staged, false, untracked) ->
  owner_repo (remote_url (world st)) = Ret (owner, repo) ->
  (forall r b w, fst (exec T (GitPush r b) w) = None) ->
  (forall w endpoint data, perform T w endpoint data = Ret (JDict fields)) ->
  lookup "html_url" fields = None ->
  lookup "message" fields = None ->
  (result (create_pull_request T feature body base st)
   = Raise (KeyError "message")
   /\ emitted (create_pull_request T feature body base st)
      = (push_trace (name (self st)) (world st)
         ++ [Sleep 1; Message "Posting pull request";
             Post ("/repos/" ++ owner ++ "/" ++ repo ++ "/pulls")
               {| pull_title := "Please review branch feature/" ++ feature;
                  pull_body := body;
                  pull_head := "feature/" ++ feature;
                  pull_base := base |}])%list)
  /\ (forall st0 fs v,
        lookup "html_url" fs = Some v ->
        result (handle_response T (JDict fs) st0) = Ret tt
        /\ emitted (handle_response T (JDict fs) st0)
           = [LogInfo ("Pull Request: " ++ format_s T v)])
  /\ (forall st0 fs errors,
        lookup "html_url" fs = None ->
        lookup "message" fs = Some (JStr "Validation Failed") ->
        lookup "errors" fs = Some (JList errors) ->
        forallb is_dict errors = true ->
        result (handle_response T (JDict fs) st0) = Ret tt
        /\ emitted (handle_response T (JDict fs) st0)
           = map (error_line T) errors)
  /\ (forall st0 response,
        emitted (handle_response T response st0) <> [] ->
        exists fs,
          response = JDict fs
          /\ (lookup "html_url" fs <> None
              \/ lookup "message" fs = Some (JStr "Validation Failed"))).
Proof.
  intros R C O P A H1 H2. split; [|split; [|split]].
  - unfold push_trace.
    split_state st; use_ready R; destruct mc as [f0|]; run_ops;
      injection C as C; try subst f0; try rewrite C; run_ops.
    all: rewrite O; run_ops.
    all: destruct hd as [l t h|sha]; run_ops.
    all: try (destruct (rl l) as [|c s] eqn:O'; run_ops).
    all: cbn [Py.truthy]; run_ops.
    all: try (step_exec T;
              [match goal with
               | E : exec _ (GitPush ?r ?b) ?w = _ |- _ =>
                   specialize (P r b w); rewrite E in P; discriminate P
               end|]).
    all: match goal with
         | |- context [perform ?T ?w ?e ?d] => rewrite (A w e d)
         end.
    all: cbv [handle_response py_in py_getitem]; run_ops.
    all: rewrite H1; run_ops; rewrite H2; run_ops.
    all: rewrite <- ?push_message_line_count.
    all: split; reflexivity.
  - intros st0 fs v H. now rewrite (handle_response_success T st0 fs v H).
  - intros st0 fs errors Hh Hm He Hd.
    now rewrite (handle_response_validation T st0 fs errors Hh Hm He Hd).
  - intros st0 response. apply handle_response_reports.
Qed.

Lemma create_pull_request_unexpected_response_witness :
  let T := Scenario.tools in
  let st := Scenario.state Scenario.on_develop ("A  setup.py" ++ NUL) false in
  result (create_pull_request T "x" "" "develop" st)
  = Raise (KeyError "message")
  /\ emitted (create_pull_request T "x" "" "develop" st)
     = (push_trace (name (self st)) (world st)
        ++ [Sleep 1; Message "Posting pull request";
            Post ("/repos/" ++ "zenoss" ++ "/" ++ "zendev" ++ "/pulls")
              {| pull_title := "Please review branch feature/" ++ "x";
                 pull_body := "";
                 pull_head := "feature/" ++ "x";
                 pull_base := "develop" |}])%list.
Proof.
  apply (create_pull_request_unexpected_response Scenario.tools
           (Scenario.state Scenario.on_develop ("A  setup.py" ++ NUL) false)
           "x" "" "develop" true false "zenoss" "zendev"
           [("documentation_url", JStr "https://developer.github.com/v3")]).
  - reflexivity.
  - reflexivity.
  - reflexivity.
  - intros r b w. reflexivity.
  - intros w endpoint data. reflexivity.
  - reflexivity.
  - reflexivity.
Defined.

(** An answer whose [message] is something else is neither an error of the
    program nor reported. *)
Example handle_response_other_message :
  let st := Scenario.state Scenario.on_develop "" false in
  handle_response Scenario.tools (JDict [("message", JStr "Not Found")]) st
  = {| result := Ret tt; after := st; emitted := [] |}.
Proof. reflexivity. Qed.

(** * Further properties *)

(** ** More on strings *)

Lemma split_app (sep : ascii) (s t : string) :
  Py.split sep (s ++ String sep t) = (Py.split sep s ++ Py.split sep t)%list.
Proof.
  induction s as [|c s IH]; simpl.
  - now rewrite Ascii.eqb_refl.
  - destruct (Ascii.eqb c sep); [now rewrite IH|].
    rewrite IH. destruct (Py.split sep s) as [|w ws] eqn:E; [|reflexivity].
    now apply split_not_nil in E.
Qed.

Lemma split_app_tail (sep : ascii) (p x : string) :
  Py.count sep x = 0 ->
  exists l w, Py.split sep p = (l ++ [w])%list
              /\ Py.split sep (p ++ x) = (l ++ [(w ++ x)%string])%list.
Proof.
  intros Hx. induction p as [|c p (l & w & E1 & E2)]; simpl.
  - exists [], "". split; [reflexivity|]. now apply split_no_sep.
  - destruct (Ascii.eqb c sep).
    + exists ("" :: l), w. rewrite E1, E2. split; reflexivity.
    + rewrite E1, E2. destruct l as [|a l]; simpl.
      * exists [], (String c w). split; reflexivity.
      * exists (String c a :: l), w. split; reflexivity.
Qed.

Lemma last_snoc {A} (l : list A) (a d : A) : last (l ++ [a]) d = a.
Proof. apply last_last. Qed.

Lemma last2_app {A} (l : list A) (a b : A) : Py.last2 (l ++ [a; b]) = [a; b].
Proof.
  unfold Py.last2. rewrite length_app. simpl.
  replace (length l + 2 - 2) with (length l + 0) by lia.
  rewrite skipn_app, Nat.add_0_r, skipn_all. simpl.
  now rewrite Nat.sub_diag.
Qed.

Lemma string_of_list_ascii_snoc (l : list ascii) (c : ascii) :
  string_of_list_ascii (l ++ [c]) = string_of_list_ascii l ++ String c "".
Proof. induction l as [|a l IH]; simpl; [reflexivity|now rewrite IH]. Qed.

Lemma split_ws_aux_word (cur : list ascii) (s : string) :
  all_chars (fun c => negb (Py.isspace c)) s = true ->
  Py.split_ws_aux cur s
  = match cur, s with
    | [], EmptyString => []
    | _, _ => [string_of_list_ascii (List.rev cur) ++ s]
    end.
Proof.
  revert cur. induction s as [|c s IH]; intros cur H; simpl.
  - destruct cur; [reflexivity|]. now rewrite append_nil_r.
  - simpl in H. apply andb_prop in H as [Hc Hs].
    apply negb_true_iff in Hc. rewrite Hc. rewrite (IH _ Hs). simpl.
    rewrite string_of_list_ascii_snoc, append_assoc. simpl.
    destruct cur; reflexivity.
Qed.

Lemma split_ws_word (s : string) :
  s <> "" ->
  all_chars (fun c => negb (Py.isspace c)) s = true ->
  Py.split_ws s = [s].
Proof.
  intros N H. unfold Py.split_ws. rewrite (split_ws_aux_word [] s H).
  destruct s; [contradiction|reflexivity].
Qed.

Lemma split_ws_aux_blank (s : string) :
  all_chars Py.isspace s = true -> Py.split_ws_aux [] s = [].
Proof.
  induction s as [|c s IH]; simpl; [reflexivity|].
  intros [Hc Hs]%andb_prop. rewrite Hc. now apply IH.
Qed.

Lemma length_append (a b : string) :
  String.length (a ++ b) = String.length a + String.length b.
Proof. induction a as [|c a IH]; simpl; [reflexivity|now rewrite IH]. Qed.

Lemma substring_drop (a b : string) :
  substring (String.length a) (String.length b) (a ++ b) = b.
Proof. induction a as [|c a IH]; simpl; [apply substring_full|exact IH]. Qed.

Lemma substring_take (a b : string) :
  substring 0 (String.length a) (a ++ b) = a.
Proof.
  induction a as [|c a IH]; simpl.
  - destruct b; reflexivity.
  - now rewrite IH.
Qed.

Lemma endswith_app (a suffix : string) : Py.endswith suffix (a ++ suffix) = true.
Proof.
  unfold Py.endswith. rewrite length_append.
  replace (String.length a + String.length suffix - String.length suffix)
    with (String.length a) by lia.
  rewrite substring_drop, String.eqb_refl, andb_true_r.
  apply Nat.leb_le. lia.
Qed.

Lemma drop_last_app (a suffix : string) :
  Py.drop_last (String.length suffix) (a ++ suffix) = a.
Proof.
  unfold Py.drop_last. rewrite length_append.
  replace (String.length a + String.length suffix - String.length suffix)
    with (String.length a) by lia.
  apply substring_take.
Qed.

Lemma count_of_all (p : ascii -> bool) (c : ascii) (s : string) :
  p c = false -> all_chars p s = true -> Py.count c s = 0.
Proof.
  intros Hc. induction s as [|d s IH]; simpl; [reflexivity|].
  intros [Hd Hs]%andb_prop. rewrite (IH Hs).
  destruct (Ascii.eqb_spec d c); [congruence|reflexivity].
Qed.

Lemma prefix_spec (a s : string) :
  String.prefix a s = true <-> exists post, s = a ++ post.
Proof.
  revert a. induction s as [|c s IH]; intros a.
  - destruct a as [|x a]; simpl.
    + split; [exists ""; reflexivity|reflexivity].
    + split; [discriminate|]. intros (p & H). discriminate H.
  - destruct a as [|x a]; simpl.
    + split; [intros _; eexists; reflexivity|reflexivity].
    + destruct (ascii_dec x c) as [->|N].
      * rewrite IH. split.
        -- intros (p & ->). exists p. reflexivity.
        -- intros (p & H). injection H as ->. exists p. reflexivity.
      * split; [discriminate|]. intros (p & H). injection H as H _.
        congruence.
Qed.

Lemma index_zero_step (sub : string) (c : ascii) (s : string) :
  index 0 sub (String c s)
  = if String.prefix sub (String c s) then Some 0
    else match index 0 sub s with
         | Some n => Some (S n)
         | None => None
         end.
Proof. reflexivity. Qed.

Lemma contains_spec (sub s : string) :
  Zendev.contains sub s = true <-> exists pre post, s = pre ++ sub ++ post.
Proof.
  unfold Zendev.contains. induction s as [|c s IH].
  - destruct sub as [|x sub]; simpl.
    + split; [exists "", ""; reflexivity|reflexivity].
    + split; [discriminate|]. intros (pre & post & H).
      destruct pre; discriminate H.
  - rewrite index_zero_step.
    destruct (String.prefix sub (String c s)) eqn:P.
    + split; [|reflexivity]. intros _.
      apply prefix_spec in P as (post & ->). exists "", post. reflexivity.
    + split.
      * destruct (index 0 sub s); [|discriminate]. intros _.
        destruct (proj1 IH eq_refl) as (pre & post & ->).
        exists (String c pre), post. reflexivity.
      * intros (pre & post & H). destruct pre as [|x pre].
        -- simpl in H. assert (String.prefix sub (String c s) = true)
             by (apply prefix_spec; exists post; exact H). congruence.
        -- injection H as -> ->.
           assert (K : is_some (index 0 sub (pre ++ sub ++ post)) = true)
             by (apply IH; eauto).
           destruct (index 0 sub (pre ++ sub ++ post)); [reflexivity|exact K].
Qed.

(** ** More on URL normalisation *)

Lemma shorthand_one_slash (s : string) :
  Shorthand.is_shorthand s -> Py.count slash s = 1.
Proof.
  intros (a & b & -> & _ & _ & Ha & Hb).
  assert (Ca : Py.count slash a = 0)
    by (apply (count_of_all Shorthand.owner_char); [reflexivity|exact Ha]).
  assert (Cb : Py.count slash b = 0)
    by (apply (count_of_all Shorthand.repo_char); [reflexivity|exact Hb]).
  rewrite count_app. cbn [Py.count].
  now rewrite Ascii.eqb_refl, Ca, Cb.
Qed.

(** X1. Normalising twice is normalising once: a rewritten URL begins with
    [git@], whose [@] keeps it from being taken for a shorthand again. *)
Theorem proper_url_idempotent (url : string) :
  _proper_url (_proper_url url) = _proper_url url.
Proof.
  unfold _proper_url. destruct (is_github url) eqn:G.
  - assert (N : is_github ("git@github.com:" ++ url) = false) by reflexivity.
    now rewrite N.
  - now rewrite G.
Qed.

(** X2. A string that does not have exactly one slash - a URL with a
    scheme or a path, a bare name - is returned as it is. *)
Theorem proper_url_keeps_other_urls (url : string) :
  Py.count slash url <> 1 -> _proper_url url = url.
Proof.
  intros H. apply proper_url_spec.
  - intros S. apply shorthand_one_slash in S. contradiction.
  - intros (s & S & ->). apply shorthand_one_slash in S.
    rewrite count_app in H. simpl in H. lia.
Qed.

Lemma proper_url_keeps_other_urls_witness :
  _proper_url "https://github.com/zenoss/zendev.git"
  = "https://github.com/zenoss/zendev.git".
Proof.
  apply (proper_url_keeps_other_urls "https://github.com/zenoss/zendev.git").
  vm_compute. discriminate.
Defined.

(** X3. What [is_github] accepts, exactly: the strings made of a non-empty
    segment without slash, white space or [@], a slash and a non-empty
    segment without slash or white space, and those strings followed by
    one newline. *)
Theorem is_github_accepts_exactly (url : string) :
  is_github url = true <->
  Shorthand.is_shorthand url
  \/ exists s, Shorthand.is_shorthand s /\ url = s ++ nl.
Proof. exact (is_github_spec url). Qed.

(** ** The owner and the repository of a remote URL *)

Lemma owner_repo_components (url owner R : string) (l : list string) :
  Py.split slash (Py.rsplit1_last colon url) = (l ++ [owner; R])%list ->
  R <> "" ->
  all_chars (fun c => negb (Py.isspace c)) R = true ->
  owner_repo url = Ret (owner, strip_git R).
Proof.
  intros E N W. unfold owner_repo. fold colon. rewrite E, last2_app.
  rewrite (split_ws_word R N W). reflexivity.
Qed.

Lemma split_owner_repo (owner R : string) :
  Py.count slash owner = 0 -> Py.count slash R = 0 ->
  Py.split slash (owner ++ String slash R) = [owner; R].
Proof.
  intros Ho Hr. rewrite split_app_sep by exact Ho.
  now rewrite (split_no_sep _ _ Hr).
Qed.

Lemma last_two_components (pre : string) (sep : ascii) (owner R : string) :
  sep = colon \/ sep = slash ->
  Py.count colon owner = 0 -> Py.count slash owner = 0 ->
  Py.count colon R = 0 -> Py.count slash R = 0 ->
  exists l,
    Py.split slash
      (Py.rsplit1_last colon (pre ++ String sep (owner ++ String slash R)))
    = (l ++ [owner; R])%list.
Proof.
  intros S Co So Cr Sr. unfold Py.rsplit1_last. destruct S as [-> | ->].
  - exists []. rewrite split_app.
    rewrite (split_no_sep colon (owner ++ String slash R)).
    + rewrite last_snoc. now apply split_owner_repo.
    + rewrite count_app. simpl. rewrite Co, Cr. reflexivity.
  - destruct (split_app_tail colon pre (String slash (owner ++ String slash R)))
      as (l & w & E1 & E2).
    { simpl. rewrite count_app. simpl. rewrite Co, Cr. reflexivity. }
    exists (Py.split slash w). rewrite E2, last_snoc.
    rewrite split_app. now rewrite split_owner_repo.
Qed.

Lemma owner_repo_last_two (pre : string) (sep : ascii) (owner R : string) :
  sep = colon \/ sep = slash ->
  Py.count colon owner = 0 -> Py.count slash owner = 0 ->
  Py.count colon R = 0 -> Py.count slash R = 0 ->
  R <> "" ->
  all_chars (fun c => negb (Py.isspace c)) R = true ->
  owner_repo (pre ++ String sep (owner ++ String slash R))
  = Ret (owner, strip_git R).
Proof.
  intros S Co So Cr Sr N W.
  destruct (last_two_components pre sep owner R S Co So Cr Sr) as [l E].
  now apply (owner_repo_components _ owner R l).
Qed.

Lemma strip_git_suffix (repo : string) : strip_git (repo ++ ".git") = repo.
Proof.
  unfold strip_git. rewrite endswith_app.
  exact (drop_last_app repo ".git").
Qed.

(** X4. A remote URL that ends in [<owner>/<repo>.git], after a colon (the
    SSH form) or after a slash (a URL with a path), yields that owner and
    that repository; so does one that ends in [<owner>/<repo>] when the
    name does not itself end in [.git]. *)
Theorem owner_repo_of_url (pre : string) (sep : ascii) (owner repo : string) :
  sep = colon \/ sep = slash ->
  Py.count colon owner = 0 -> Py.count slash owner = 0 ->
  Py.count colon repo = 0 -> Py.count slash repo = 0 ->
  all_chars (fun c => negb (Py.isspace c)) repo = true ->
  owner_repo (pre ++ String sep (owner ++ String slash (repo ++ ".git")))
  = Ret (owner, repo)
  /\ (repo <> "" -> Py.endswith ".git" repo = false ->
      owner_repo (pre ++ String sep (owner ++ String slash repo))
      = Ret (owner, repo)).
Proof.
  intros S Co So Cr Sr W. split.
  - rewrite owner_repo_last_two; auto.
    + now rewrite strip_git_suffix.
    + rewrite count_app, Cr. reflexivity.
    + rewrite count_app, Sr. reflexivity.
    + destruct repo; discriminate.
    + rewrite all_chars_app, W. reflexivity.
  - intros N E. rewrite owner_repo_last_two by assumption.
    unfold strip_git. now rewrite E.
Qed.

Lemma owner_repo_of_url_witness :
  owner_repo ("https://github.com" ++ String slash
                ("zenoss" ++ String slash ("zendev" ++ ".git")))
  = Ret ("zenoss", "zendev")
  /\ ("zendev" <> "" -> Py.endswith ".git" "zendev" = false ->
      owner_repo ("https://github.com" ++ String slash
                    ("zenoss" ++ String slash "zendev"))
      = Ret ("zenoss", "zendev")).
Proof.
  apply (owner_repo_of_url "https://github.com" slash "zenoss" "zendev").
  - right. reflexivity.
  - reflexivity.
  - reflexivity.
  - reflexivity.
  - reflexivity.
  - reflexivity.
Defined.

(** X5. A remote URL with no slash after its last colon, and one with
    neither colon nor slash, has no owner: the unpacking of the last two
    components raises [ValueError]. *)
Theorem owner_repo_needs_two_components (pre name : string) :
  Py.count colon name = 0 -> Py.count slash name = 0 ->
  owner_repo name = Raise ValueError
  /\ owner_repo (pre ++ String colon name) = Raise ValueError.
Proof.
  intros C S. unfold owner_repo. fold colon. unfold Py.rsplit1_last. split.
  - rewrite (split_no_sep colon name C). cbn [last].
    now rewrite (split_no_sep slash name S).
  - rewrite split_app, (split_no_sep colon name C), last_snoc.
    now rewrite (split_no_sep slash name S).
Qed.

Lemma owner_repo_needs_two_components_witness :
  owner_repo "zendev.git" = Raise ValueError
  /\ owner_repo ("git@example.com" ++ String colon "zendev.git")
     = Raise ValueError.
Proof.
  apply (owner_repo_needs_two_components "git@example.com" "zendev.git").
  - reflexivity.
  - reflexivity.
Defined.

(** X6. A remote URL whose last component is empty or blank - a URL that
    ends in a slash - raises [IndexError]: [repo.split()] has no first
    element. *)
Theorem owner_repo_blank_name
    (pre : string) (sep : ascii) (owner blank : string) :
  sep = colon \/ sep = slash ->
  Py.count colon owner = 0 -> Py.count slash owner = 0 ->
  all_chars Py.isspace blank = true ->
  owner_repo (pre ++ String sep (owner ++ String slash blank))
  = Raise IndexError.
Proof.
  intros S Co So B.
  assert (Cb : Py.count colon blank = 0)
    by (apply (count_of_all Py.isspace); [reflexivity|exact B]).
  assert (Sb : Py.count slash blank = 0)
    by (apply (count_of_all Py.isspace); [reflexivity|exact B]).
  destruct (last_two_components pre sep owner blank S Co So Cb Sb) as [l K].
  unfold owner_repo. fold colon.
  rewrite K, last2_app. unfold Py.split_ws.
  now rewrite (split_ws_aux_blank blank B).
Qed.

Lemma owner_repo_blank_name_witness :
  owner_repo ("https://github.com" ++ String slash ("zenoss" ++ String slash ""))
  = Raise IndexError.
Proof.
  apply (owner_repo_blank_name "https://github.com" slash "zenoss" "").
  - right. reflexivity.
  - reflexivity.
  - reflexivity.
  - reflexivity.
Defined.

(** X7. Round trip: the URL [__init__] makes of a shorthand
    [<owner>/<repo>] is one from which [create_pull_request] recovers the
    same owner and repository, provided neither contains a colon and the
    repository name does not end in [.git]. *)
Theorem proper_url_owner_repo (owner repo : string) :
  owner <> "" -> repo <> "" ->
  all_chars Shorthand.owner_char owner = true ->
  all_chars Shorthand.repo_char repo = true ->
  Py.count colon owner = 0 -> Py.count colon repo = 0 ->
  Py.endswith ".git" repo = false ->
  owner_repo (_proper_url (owner ++ String slash repo)) = Ret (owner, repo).
Proof.
  intros No Nr Ho Hr Co Cr E.
  assert (S : Shorthand.is_shorthand (owner ++ String slash repo))
    by (exists owner, repo; auto).
  rewrite (proj1 (proper_url_spec _) S).
  assert (So : Py.count slash owner = 0).
  { apply (count_of_all Shorthand.owner_char); [reflexivity|exact Ho]. }
  assert (Sr : Py.count slash repo = 0).
  { apply (count_of_all Shorthand.repo_char); [reflexivity|exact Hr]. }
  assert (W : all_chars (fun c => negb (Py.isspace c)) repo = true).
  { revert Hr. apply all_chars_impl. unfold Shorthand.repo_char.
    intros c [_ H]%andb_prop. exact H. }
  change ("git@github.com:" ++ owner ++ String slash repo)
    with ("git@github.com" ++ String colon (owner ++ String slash repo)).
  rewrite owner_repo_last_two; auto.
  unfold strip_git. now rewrite E.
Qed.

Lemma proper_url_owner_repo_witness :
  owner_repo (_proper_url ("zenoss" ++ String slash "zendev"))
  = Ret ("zenoss", "zendev").
Proof.
  apply (proper_url_owner_repo "zenoss" "zendev").
  - discriminate.
  - discriminate.
  - reflexivity.
  - reflexivity.
  - reflexivity.
  - reflexivity.
  - reflexivity.
Defined.

(** ** More on [changes] *)

(** X8. The flags of two status outputs put one after the other are, flag
    by flag, the disjunction of the flags of each: entries never cancel
    one another and their order does not matter. *)
Theorem parse_changes_app (s1 s2 : string) :
  parse_changes (s1 ++ NUL ++ s2)
  = or3 (parse_changes s1) (parse_changes s2).
Proof.
  rewrite !parse_changes_entrywise. unfold Status.entries, NUL, or3.
  cbn [append]. rewrite split_app, map_app, !existsb_app. reflexivity.
Qed.

Lemma code_classes (c : string) :
  Status.staged_code c || Status.unstaged_code c || Status.untracked_code c
  = Py.truthy c.
Proof.
  unfold Status.staged_code, Status.unstaged_code, Status.untracked_code.
  destruct c as [|x c]; [reflexivity|]. cbn.
  destruct (Ascii.eqb x "?"), (Ascii.eqb x " "); reflexivity.
Qed.

Lemma existsb_or3 {A} (f g h : A -> bool) (l : list A) :
  existsb f l || existsb g l || existsb h l
  = existsb (fun x => f x || g x || h x) l.
Proof.
  induction l as [|x l IH]; simpl; [reflexivity|]. rewrite <- IH.
  destruct (f x), (g x), (h x), (existsb f l), (existsb g l), (existsb h l);
    reflexivity.
Qed.

Lemma some_entry_nonempty (sep : ascii) (s : string) :
  existsb (fun e => Py.truthy (Py.take 2 e)) (Py.split sep s)
  = negb (all_chars (fun c => Ascii.eqb c sep) s).
Proof.
  induction s as [|c s IH]; simpl; [reflexivity|].
  destruct (Ascii.eqb c sep); simpl; [exact IH|].
  destruct (Py.split sep s); reflexivity.
Qed.

(** X9. Some flag of [changes] is set exactly when the status output
    contains a character other than the separator: every non-empty entry
    counts as a change of one kind or another, and only an output that is
    empty or made of separators is clean. *)
Theorem dirty_iff_status_not_blank (status : string) :
  Py.any3 (parse_changes status)
  = negb (all_chars (fun c => Ascii.eqb c Py.nul) status).
Proof.
  rewrite parse_changes_entrywise. unfold Py.any3, Status.entries.
  rewrite existsb_or3, <- some_entry_nonempty.
  induction (Py.split Py.nul status) as [|e es IH]; simpl; [reflexivity|].
  rewrite IH. unfold Status.code. now rewrite code_classes.
Qed.

(** ** More on [push] *)

Lemma count_concat_lines (hashes : list string) :
  hashes <> [] ->
  Forall (fun h => Py.count Py.newline h = 0) hashes ->
  line_count (String.concat nl hashes) = length hashes.
Proof.
  unfold line_count. intros N F. rewrite split_length.
  induction F as [|h hs Hh F IH]; [contradiction|].
  destruct hs as [|h' hs].
  - simpl. rewrite Hh. reflexivity.
  - change (String.concat nl (h :: h' :: hs))
      with (h ++ String Py.newline (String.concat nl (h' :: hs))).
    rewrite count_app. cbn [Py.count]. rewrite Ascii.eqb_refl, Hh.
    assert (IH' := IH ltac:(discriminate)). cbn [length] in *. lia.
Qed.

(** X10. When the rev-list output is a list of commit ids, one per line,
    [push] announces exactly as many commits as there are ids, and pushes
    the active branch to [origin]. *)
Theorem push_announces_commit_count
    (T : Tools) (st : State) (l : string) (t : option string) (h : string)
    (hashes : list string) :
  ready st = true ->
  head (world st) = Attached l t h ->
  rev_list (world st) l = String.concat nl hashes ->
  Forall (fun c => c <> "" /\ Py.count Py.newline c = 0) hashes ->
  hashes <> [] ->
  emitted (push T st)
  = [Message (Py.str_of_nat (length hashes) ++ " local commits in "
                ++ name (self st) ++ ":" ++ l
                ++ " need to be pushed.  Pushing...");
     Run (GitPush (origin (world st)) l)].
Proof.
  intros R Hd O F N. destruct (push_ready T st R) as [E _]. rewrite E.
  unfold push_trace. rewrite Hd, O.
  rewrite count_concat_lines; auto.
  - destruct hashes as [|c cs]; [contradiction|].
    inversion F as [|? ? [Hc _] _]; subst.
    destruct c as [|x c]; [contradiction|].
    destruct cs; reflexivity.
  - revert F. apply Forall_impl. tauto.
Qed.

Lemma push_announces_commit_count_witness :
  emitted (push Scenario.tools Cases.clean)
  = [Message (Py.str_of_nat (length ["1f3e"; "9a0c"]) ++ " local commits in "
                ++ name (self Cases.clean) ++ ":" ++ "develop"
                ++ " need to be pushed.  Pushing...");
     Run (GitPush (origin (world Cases.clean)) "develop")].
Proof.
  apply (push_announces_commit_count Scenario.tools Cases.clean
           "develop" (Some "origin/develop") "9a0c" ["1f3e"; "9a0c"]).
  - reflexivity.
  - reflexivity.
  - reflexivity.
  - repeat constructor; discriminate.
  - discriminate.
Defined.

(** ** More on [merge_from_remote] *)

(** X11. When the rebase fails, its error leaves [merge_from_remote] and
    the stash made before it is not re-applied: the changes of the working
    copy stay in the stash. *)
Theorem merge_from_remote_failed_rebase
    (T : Tools) (st : State) (l : string) (t : option string) (h : string)
    (flags : bool * bool * bool) (e : exn) :
  ready st = true ->
  head (world st) = Attached l t h ->
  is_merged_into (world st) (effective_remote l t) l = false ->
  result (changes T st) = Ret flags ->
  (forall w, fst (exec T GitStash w) = None) ->
  (forall w, fst (exec T (GitRebase (effective_remote l t)) w) = Some e) ->
  result (merge_from_remote T st) = Raise e
  /\ emitted (merge_from_remote T st)
     = Message (rebase_message (name (self st)) (effective_remote l t) l)
         :: (if Py.any3 flags then [Run GitStash] else [])
         ++ [Run (GitRebase (effective_remote l t))].
Proof.
  intros R Hd Mg C S B.
  split_state st; use_ready R; subst.
  all: destruct mc as [f0|]; run_ops; injection C as <-.
  all: rewrite Mg; run_ops.
  all: match goal with
       | |- context [Py.any3 ?f] => destruct (Py.any3 f) eqn:A
       end; run_ops.
  all: try fail_step T S.
  all: fail_step T B.
  all: split; reflexivity.
Qed.

Lemma merge_from_remote_failed_rebase_witness :
  let T := Cases.failing Cases.is_rebase GitCommandError in
  result (merge_from_remote T Cases.dirty) = Raise GitCommandError
  /\ emitted (merge_from_remote T Cases.dirty)
     = Message (rebase_message (name (self Cases.dirty))
                  (effective_remote "develop" (Some "origin/develop"))
                  "develop")
         :: (if Py.any3 (false, true, false) then [Run GitStash] else [])
         ++ [Run (GitRebase
                    (effective_remote "develop" (Some "origin/develop")))].
Proof.
  apply (merge_from_remote_failed_rebase
           (Cases.failing Cases.is_rebase GitCommandError) Cases.dirty
           "develop" (Some "origin/develop") "9a0c" (false, true, false)
           GitCommandError).
  - reflexivity.
  - reflexivity.
  - reflexivity.
  - reflexivity.
  - intros w. reflexivity.
  - intros w. reflexivity.
Defined.

(** X12. When the stash fails, its error leaves [merge_from_remote] and the
    rebase is not attempted. *)
Theorem merge_from_remote_failed_stash
    (T : Tools) (st : State) (l : string) (t : option string) (h : string)
    (flags : bool * bool * bool) (e : exn) :
  ready st = true ->
  head (world st) = Attached l t h ->
  is_merged_into (world st) (effective_remote l t) l = false ->
  result (changes T st) = Ret flags ->
  Py.any3 flags = true ->
  (forall w, fst (exec T GitStash w) = Some e) ->
  result (merge_from_remote T st) = Raise e
  /\ emitted (merge_from_remote T st)
     = [Message (rebase_message (name (self st)) (effective_remote l t) l);
        Run GitStash].
Proof.
  intros R Hd Mg C A S.
  split_state st; use_ready R; subst.
  all: destruct mc as [f0|]; run_ops; injection C as C; subst.
  all: rewrite Mg; run_ops.
  all: rewrite A; run_ops.
  all: fail_step T S.
  all: split; reflexivity.
Qed.

Lemma merge_from_remote_failed_stash_witness :
  let T := Cases.failing Cases.is_stash GitCommandError in
  result (merge_from_remote T Cases.dirty) = Raise GitCommandError
  /\ emitted (merge_from_remote T Cases.dirty)
     = [Message (rebase_message (name (self Cases.dirty))
                   (effective_remote "develop" (Some "origin/develop"))
                   "develop");
        Run GitStash].
Proof.
  apply (merge_from_remote_failed_stash
           (Cases.failing Cases.is_stash GitCommandError) Cases.dirty
           "develop" (Some "origin/develop") "9a0c" (false, true, false)
           GitCommandError).
  - reflexivity.
  - reflexivity.
  - reflexivity.
  - reflexivity.
  - reflexivity.
  - intros w. reflexivity.
Defined.

(** ** More on [create_pull_request] *)

(** X13. When the URL of the remote does not yield an owner and a
    repository, [create_pull_request] ends with that error before
    anything is pushed or posted. *)
Theorem create_pull_request_bad_remote_url
    (T : Tools) (st : State) (feature body base : string)
    (staged untracked : bool) (e : exn) :
  ready st = true ->
  result (changes T st) = Ret (staged, false, untracked) ->
  owner_repo (remote_url (world st)) = Raise e ->
  result (create_pull_request T feature body base st) = Raise e
  /\ emitted (create_pull_request T feature body base st) = [].
Proof.
  intros R C O.
  split_state st; use_ready R; destruct mc as [f0|]; run_ops;
    injection C as C; try subst f0; try rewrite C; run_ops.
  all: rewrite O; run_ops; split; reflexivity.
Qed.

Lemma create_pull_request_bad_remote_url_witness :
  let st := {| self := Scenario.zendev;
               world := Cases.with_remote_url (world Cases.staged)
                          "git@example.com:zendev.git" |} in
  result (create_pull_request Scenario.tools "x" "" "develop" st)
  = Raise ValueError
  /\ emitted (create_pull_request Scenario.tools "x" "" "develop" st) = [].
Proof.
  apply (create_pull_request_bad_remote_url Scenario.tools
           {| self := Scenario.zendev;
              world := Cases.with_remote_url (world Cases.staged)
                         "git@example.com:zendev.git" |}
           "x" "" "develop" true false ValueError).
  - reflexivity.
  - reflexivity.
  - reflexivity.
Defined.

(** X14. When the push fails, [create_pull_request] ends with that error
    after the announcement and the attempt to push: nothing is posted to
    the hosting API. *)
Theorem create_pull_request_failed_push
    (T : Tools) (st : State) (feature body base : string)
    (staged untracked : bool) (owner repo l : string) (t : option string)
    (h : string) (e : exn) :
  ready st = true ->
  result (changes T st) = Ret (staged, false, untracked) ->
  owner_repo (remote_url (world st)) = Ret (owner, repo) ->
  head (world st) = Attached l t h ->
  rev_list (world st) l <> "" ->
  (forall w, fst (exec T (GitPush (origin (world st)) l) w) = Some e) ->
  result (create_pull_request T feature body base st) = Raise e
  /\ emitted (create_pull_request T feature body base st)
     = push_trace (name (self st)) (world st).
Proof.
  intros R C O Hd N P. unfold push_trace.
  split_state st; use_ready R; subst; destruct mc as [f0|]; run_ops;
    injection C as C; try subst f0; try rewrite C; run_ops.
  all: rewrite O; run_ops.
  all: destruct (rl l) as [|c s] eqn:O'; [contradiction|]; run_ops.
  all: cbn [Py.truthy]; run_ops.
  all: fail_step T P.
  all: rewrite <- ?push_message_line_count; split; reflexivity.
Qed.

Lemma create_pull_request_failed_push_witness :
  let T := Cases.failing Cases.is_push GitCommandError in
  result (create_pull_request T "x" "" "develop" Cases.staged)
  = Raise GitCommandError
  /\ emitted (create_pull_request T "x" "" "develop" Cases.staged)
     = push_trace (name (self Cases.staged)) (world Cases.staged).
Proof.
  apply (create_pull_request_failed_push
           (Cases.failing Cases.is_push GitCommandError) Cases.staged
           "x" "" "develop" true false "zenoss" "zendev"
           "develop" (Some "origin/develop") "9a0c" GitCommandError).
  - reflexivity.
  - reflexivity.
  - reflexivity.
  - reflexivity.
  - discriminate.
  - intros w. reflexivity.
Defined.

Lemma report_errors_until (T : Tools) (pre post : list Json) (bad : Json)
    (st : State) :
  forallb is_dict pre = true ->
  is_dict bad = false ->
  for_each (pre ++ bad :: post)
    (fun e => bind (py_get e "message" (JStr (json_dumps T e)))
                (fun v => error ("Error: " ++ format_s T v))) st
  = {| result := Raise AttributeError; after := st;
       emitted := map (error_line T) pre |}.
Proof.
  intros P B. induction pre as [|e pre IH].
  - destruct bad; try discriminate; reflexivity.
  - cbn in P. apply andb_prop in P as [D P].
    destruct e; try discriminate.
    cbn [app for_each]. erewrite bind_ret_eq; [|reflexivity].
    rewrite (IH P). reflexivity.
Qed.

(** X15. A validation failure whose [errors] array holds something that is
    not an object is reported up to that entry and then ends with an
    [AttributeError]: the entries after it are never reported. *)
Theorem handle_response_malformed_errors
    (T : Tools) (st : State) (fields : list (string * Json))
    (pre post : list Json) (bad : Json) :
  lookup "html_url" fields = None ->
  lookup "message" fields = Some (JStr "Validation Failed") ->
  lookup "errors" fields = Some (JList (pre ++ bad :: post)) ->
  forallb is_dict pre = true ->
  is_dict bad = false ->
  result (handle_response T (JDict fields) st) = Raise AttributeError
  /\ emitted (handle_response T (JDict fields) st) = map (error_line T) pre.
Proof.
  intros H M E P B. unfold handle_response.
  erewrite bind_ret_eq; [|cbv [py_in ret]; rewrite H; reflexivity].
  cbv [is_some].
  erewrite bind_ret_eq; [|cbv [py_getitem ret]; rewrite M; reflexivity].
  cbv [is_str]. cbn [String.eqb Ascii.eqb Bool.eqb].
  erewrite bind_ret_eq; [|cbv [py_getitem ret]; rewrite E; reflexivity].
  erewrite bind_ret_eq; [|reflexivity].
  rewrite (report_errors_until T pre post bad st P B). split; reflexivity.
Qed.

Lemma handle_response_malformed_errors_witness :
  let first := JDict [("message", JStr "No commits between develop and x")] in
  let fields := [("message", JStr "Validation Failed");
                 ("errors", JList ([first] ++ JStr "head" :: [first]))] in
  result (handle_response Scenario.tools (JDict fields) Cases.clean)
  = Raise AttributeError
  /\ emitted (handle_response Scenario.tools (JDict fields) Cases.clean)
     = map (error_line Scenario.tools) [first].
Proof.
  apply (handle_response_malformed_errors Scenario.tools Cases.clean
           [("message", JStr "Validation Failed");
            ("errors",
             JList ([JDict [("message",
                             JStr "No commits between develop and x")]]
                    ++ JStr "head"
                    :: [JDict [("message",
                                JStr "No commits between develop and x")]]))]
           [JDict [("message", JStr "No commits between develop and x")]]
           [JDict [("message", JStr "No commits between develop and x")]]
           (JStr "head")).
  - reflexivity.
  - reflexivity.
  - reflexivity.
  - reflexivity.
  - reflexivity.
Defined.

(** X16. A validation failure without an [errors] field ends with the key
    error of [response['errors']], nothing being reported. *)
Theorem handle_response_missing_errors
    (T : Tools) (st : State) (fields : list (string * Json)) :
  lookup "html_url" fields = None ->
  lookup "message" fields = Some (JStr "Validation Failed") ->
  lookup "errors" fields = None ->
  result (handle_response T (JDict fields) st) = Raise (KeyError "errors")
  /\ emitted (handle_response T (JDict fields) st) = [].
Proof.
  intros H M E. cbv [handle_response py_in py_getitem]. run_ops.
  rewrite H. run_ops. rewrite M. cbv [is_str].
  cbn [String.eqb Ascii.eqb Bool.eqb]. run_ops. rewrite E. run_ops.
  split; reflexivity.
Qed.

Lemma handle_response_missing_errors_witness :
  let fields := [("message", JStr "Validation Failed")] in
  result (handle_response Scenario.tools (JDict fields) Cases.clean)
  = Raise (KeyError "errors")
  /\ emitted (handle_response Scenario.tools (JDict fields) Cases.clean) = [].
Proof.
  apply (handle_response_missing_errors Scenario.tools Cases.clean
           [("message", JStr "Validation Failed")]).
  - reflexivity.
  - reflexivity.
  - reflexivity.
Defined.

(** ** [finish_feature] and [checkout] *)

(** X17. On an instance that has not read its branch lists yet,
    [finish_feature] finishes the feature through git-flow exactly when
    [feature/<name>] is a local branch, and deletes the remote branch, by
    pushing [:feature/<name>] to [origin], exactly when the finish did not
    fail and [origin/feature/<name>] is listed once it is done. *)
Theorem finish_feature_steps (T : Tools) (st : State) (name : string) :
  ready st = true ->
  memo_local_branches (memo (self st)) = None ->
  memo_remote_branches (memo (self st)) = None ->
  let w := world st in
  let gone := Run (OriginPush (":feature/" ++ name)) in
  let listed w' := mem ("origin/feature/" ++ name) (branch_names w' true) in
  emitted (finish_feature T name st)
  = if mem ("feature/" ++ name) (branch_names w false) then
      Run (finish_command name)
        :: match exec T (finish_command name) w with
           | (None, w') => if listed w' then [gone] else []
           | (Some _, _) => []
           end
    else if listed w then [gone] else [].
Proof.
  intros R L M. unfold finish_command.
  split_state st; use_ready R; subst; run_ops.
  all: match goal with
       | |- context [mem ?a (?f false)] => destruct (mem a (f false)) eqn:EL
       end; run_ops.
  all: try step_exec T; try reflexivity.
  all: match goal with
       | |- context [mem ?a ?l] => destruct (mem a l) eqn:ER
       end; run_ops.
  all: try step_exec T; reflexivity.
Qed.

Lemma finish_feature_steps_witness :
  let T := Scenario.tools in
  let st := Cases.with_feature in
  let w := world st in
  let gone := Run (OriginPush (":feature/" ++ "x")) in
  let listed w' := mem ("origin/feature/" ++ "x") (branch_names w' true) in
  emitted (finish_feature T "x" st)
  = if mem ("feature/" ++ "x") (branch_names w false) then
      Run (finish_command "x")
        :: match exec T (finish_command "x") w with
           | (None, w') => if listed w' then [gone] else []
           | (Some _, _) => []
           end
    else if listed w then [gone] else [].
Proof.
  apply (finish_feature_steps Scenario.tools Cases.with_feature "x").
  - reflexivity.
  - reflexivity.
  - reflexivity.
Defined.

(** X18. On one instance, finishing a feature right after creating it does
    nothing: [create_feature] read and memoized the branch lists when the
    feature was absent, and [finish_feature] consults those lists. *)
Theorem finish_after_create_does_nothing
    (T : Tools) (st : State) (name : string) :
  ready st = true ->
  memo_local_branches (memo (self st)) = None ->
  memo_remote_branches (memo (self st)) = None ->
  feature_state (world st) name = Absent ->
  result (finish_feature T name (after (create_feature T name st))) = Ret tt
  /\ emitted (finish_feature T name (after (create_feature T name st))) = [].
Proof.
  intros R L M A. unfold feature_state in A.
  destruct (mem ("feature/" ++ name) (branch_names (world st) false)) eqn:EL,
    (mem ("origin/feature/" ++ name) (branch_names (world st) true)) eqn:ER;
    try discriminate. clear A.
  split_state st; use_ready R; subst; run_ops; settle EL ER.
  all: repeat (step_exec T; settle EL ER).
  all: split; reflexivity.
Qed.

Lemma finish_after_create_does_nothing_witness :
  result (finish_feature Scenario.tools "x"
            (after (create_feature Scenario.tools "x" Cases.clean))) = Ret tt
  /\ emitted (finish_feature Scenario.tools "x"
                (after (create_feature Scenario.tools "x" Cases.clean))) = [].
Proof.
  apply (finish_after_create_does_nothing Scenario.tools Cases.clean "x").
  - reflexivity.
  - reflexivity.
  - reflexivity.
  - reflexivity.
Defined.

(** X19. [checkout] compares the ref with the memoized [branch]: checking
    out the branch the instance first saw does nothing, also after the
    instance itself has checked out another ref, so that a second
    [checkout] cannot bring the working copy back. *)
Theorem checkout_uses_memoized_branch
    (T : Tools) (st : State) (b : string) (t : option string) (h ref : string) :
  ready st = true ->
  memo_branch (memo (self st)) = None ->
  head (world st) = Attached b t h ->
  ref <> b ->
  fst (exec T (GitCheckout ref) (world st)) = None ->
  emitted (checkout T b st) = []
  /\ emitted (checkout T ref st) = [Run (GitCheckout ref)]
  /\ result (checkout T b (after (checkout T ref st))) = Ret tt
  /\ emitted (checkout T b (after (checkout T ref st))) = [].
Proof.
  intros R M Hd N Ok. apply String.eqb_neq in N.
  split_state st; use_ready R; subst; run_ops.
  all: cbv [opt_eqb]; rewrite String.eqb_refl, N; run_ops.
  all: revert Ok; step_exec T; intros Ok; cbn [fst] in Ok; try discriminate.
  all: cbv [opt_eqb]; rewrite ?String.eqb_refl; run_ops.
  all: repeat split; reflexivity.
Qed.

Lemma checkout_uses_memoized_branch_witness :
  let T := Scenario.tools in
  let st := Cases.clean in
  emitted (checkout T "develop" st) = []
  /\ emitted (checkout T "master" st) = [Run (GitCheckout "master")]
  /\ result (checkout T "develop" (after (checkout T "master" st))) = Ret tt
  /\ emitted (checkout T "develop" (after (checkout T "master" st))) = [].
Proof.
  apply (checkout_uses_memoized_branch Scenario.tools Cases.clean
           "develop" (Some "origin/develop") "9a0c" "master").
  - reflexivity.
  - reflexivity.
  - reflexivity.
  - discriminate.
  - reflexivity.
Defined.

(** ** More on [clone] *)

(** X20. A shallow clone never sets up git-flow, whatever the tools do. *)
Theorem shallow_clone_skips_flow_init (T : Tools) (st : State) :
  ~ In (Run FlowInit) (emitted (shallow_clone T st)).
Proof.
  destruct st as [[nm pth rn u rf hdl mm] [pc igr ii hd sz bn tg imi rl og ru]].
  run_ops. destruct pc; run_ops; [intros []|].
  walk T.
  all: cbn [In]; intuition discriminate.
Qed.

(** X21. When [clone] returns normally the instance holds a handle on the
    path it cloned to, the parent directories were made, and the values
    memoized before the clone are kept as they were. *)
Theorem clone_attaches_handle (T : Tools) (st : State) (shallow : bool) :
  result (clone T shallow st) = Ret tt ->
  _repo (self (after (clone T shallow st))) = Some (GitFlowAt (path (self st)))
  /\ memo (self (after (clone T shallow st))) = memo (self st)
  /\ In (Run (EnsureDir (path (self st)))) (emitted (clone T shallow st)).
Proof.
  destruct st as [[nm pth rn u rf hdl mm] [pc igr ii hd sz bn tg imi rl og ru]].
  destruct shallow; run_ops; (destruct pc; run_ops; [discriminate|]).
  all: walk T.
  all: intros Ok; try discriminate Ok.
  all: repeat split; cbn [In]; auto.
Qed.

Lemma clone_attaches_handle_witness :
  let T := Scenario.tools in
  let st := Cases.before_clone in
  _repo (self (after (clone T false st))) = Some (GitFlowAt (path (self st)))
  /\ memo (self (after (clone T false st))) = memo (self st)
  /\ In (Run (EnsureDir (path (self st)))) (emitted (clone T false st)).
Proof.
  apply (clone_attaches_handle Scenario.tools Cases.before_clone false).
  reflexivity.
Defined.

(** X22. When the clone at the ref fails with [GitCommandError], [clone]
    clones again with neither branch nor depth - also when it was asked
    for a shallow clone - and then checks the ref out; any other failure
    of the first clone ends the operation. *)
Theorem clone_falls_back_to_full_clone
    (T : Tools) (st : State) (shallow : bool) (w1 w2 : World) (e : exn) :
  path_check (world st) = false ->
  exec T (EnsureDir (path (self st))) (world st) = (None, w1) ->
  exec T (CloneFrom (url (self st)) (path (self st))
            (if shallow then Some 1 else None)
            (if Py.truthy (ref (self st)) then Some (ref (self st)) else None))
       w1 = (Some e, w2) ->
  if is_GitCommandError e then
    exists rest,
      emitted (clone T shallow st)
      = Run (EnsureDir (path (self st)))
          :: Run (CloneFrom (url (self st)) (path (self st))
                    (if shallow then Some 1 else None)
                    (if Py.truthy (ref (self st))
                     then Some (ref (self st)) else None))
          :: Run (CloneFrom (url (self st)) (path (self st)) None None)
          :: rest
      /\ (fst (exec T (CloneFrom (url (self st)) (path (self st)) None None) w2)
          = None ->
          exists rest', rest = Run (GitCheckout (ref (self st))) :: rest')
  else
    result (clone T shallow st) = Raise e
    /\ emitted (clone T shallow st)
       = [Run (EnsureDir (path (self st)));
          Run (CloneFrom (url (self st)) (path (self st))
                 (if shallow then Some 1 else None)
                 (if Py.truthy (ref (self st))
                  then Some (ref (self st)) else None))].
Proof.
  destruct st as [[nm pth rn u rf hdl mm] [pc igr ii hd sz bn tg imi rl og ru]].
  run_ops. intros -> E1 E2. rewrite E1. run_ops. rewrite E2. run_ops.
  destruct e; run_ops; try (split; reflexivity).
  step_exec T.
  - eexists. split; [reflexivity|]. cbn [fst]. discriminate.
  - walk T.
    all: eexists; (split; [reflexivity|]); intros _; eexists; reflexivity.
Qed.

Lemma clone_falls_back_to_full_clone_witness :
  let T := Cases.failing Cases.is_branch_clone GitCommandError in
  let st := Cases.before_clone in
  exists rest,
    emitted (clone T true st)
    = Run (EnsureDir (path (self st)))
        :: Run (CloneFrom (url (self st)) (path (self st))
                  (if true then Some 1 else None)
                  (if Py.truthy (ref (self st))
                   then Some (ref (self st)) else None))
        :: Run (CloneFrom (url (self st)) (path (self st)) None None)
        :: rest
    /\ (fst (exec T (CloneFrom (url (self st)) (path (self st)) None None)
               (world st))
        = None ->
        exists rest', rest = Run (GitCheckout (ref (self st))) :: rest').
Proof.
  apply (clone_falls_back_to_full_clone
           (Cases.failing Cases.is_branch_clone GitCommandError)
           Cases.before_clone true (world Cases.before_clone)
           (world Cases.before_clone) GitCommandError).
  - reflexivity.
  - reflexivity.
  - reflexivity.
Defined.

(** ** The command line *)

(** X23. [validate_cmd_env] lets a command through without asking the
    configuration exactly when its name occurs inside one of the entries
    of the whitelist, and otherwise answers what the configuration
    answers. The seven commands the list is written for pass, [init] and
    [ls] too although the list runs them together; so does the empty
    name. *)
Theorem validate_cmd_env_by_substring (subparser : string) (answer : bool) :
  ((exists entry pre post,
      In entry Zendev.all_env_whitelist /\ entry = pre ++ subparser ++ post) ->
   Zendev.validate_cmd_env subparser answer = true)
  /\ (~ (exists entry pre post,
          In entry Zendev.all_env_whitelist
          /\ entry = pre ++ subparser ++ post) ->
      Zendev.validate_cmd_env subparser answer = answer)
  /\ Forall (fun cmd => Zendev.validate_cmd_env cmd false = true)
       ["bootstrap"; "env"; "init"; "ls"; "root"; "selfupdate"; "use"]
  /\ Zendev.validate_cmd_env "" false = true.
Proof.
  unfold Zendev.validate_cmd_env. split; [|split; [|split]].
  - intros (entry & pre & post & I & E).
    assert (X : existsb (Zendev.contains subparser) Zendev.all_env_whitelist
                = true).
    { apply existsb_exists. exists entry. split; [exact I|].
      apply contains_spec. eauto. }
    now rewrite X.
  - intros N.
    destruct (existsb (Zendev.contains subparser) Zendev.all_env_whitelist)
      eqn:X; [|reflexivity].
    exfalso. apply N. apply existsb_exists in X as (entry & I & C).
    apply contains_spec in C as (pre & post & E). eauto.
  - repeat constructor.
  - reflexivity.
Qed.

(** X24. The arguments of [build] pass the check of [parse_args] exactly
    when [--rps], [--ga_image] and the presence of an [rps-img-] target
    all agree: given together or not at all. *)
Theorem check_build_args_accepts (rps ga_image : bool) (target : list string) :
  Zendev.check_build_args rps ga_image target = None
  <-> (rps = ga_image
       /\ rps = existsb (String.prefix "rps-img-") target).
Proof.
  unfold Zendev.check_build_args.
  destruct rps, ga_image, (existsb (String.prefix "rps-img-") target); cbn;
    intuition discriminate.
Qed.

(** ** More on state inspection *)

(** X25. [remote_branch], read for the first time, returns the name of the
    tracking branch of the active branch, Python's [None] when there is
    none - and on a detached head it raises [TypeError], memoizing
    nothing: unlike [branch] and [hash] it has no handler for it. *)
Theorem remote_branch_by_head (T : Tools) (st : State) :
  ready st = true ->
  memo_remote_branch (memo (self st)) = None ->
  match head (world st) with
  | Attached _ tracking _ =>
      result (remote_branch T st) = Ret tracking
      /\ memo_remote_branch (memo (self (after (remote_branch T st))))
         = Some tracking
  | Detached _ =>
      result (remote_branch T st) = Raise TypeError
      /\ emitted (remote_branch T st) = []
      /\ memo_remote_branch (memo (self (after (remote_branch T st)))) = None
  end.
Proof.
  intros R M. split_state st; use_ready R; subst; run_ops.
  all: destruct hd as [l t h|sha]; run_ops; repeat split.
Qed.

Lemma remote_branch_by_head_witness :
  let st := Scenario.state (Detached "9a0c") "" false in
  result (remote_branch Scenario.tools st) = Raise TypeError
  /\ emitted (remote_branch Scenario.tools st) = []
  /\ memo_remote_branch
       (memo (self (after (remote_branch Scenario.tools st)))) = None.
Proof.
  apply (remote_branch_by_head Scenario.tools
           (Scenario.state (Detached "9a0c") "" false)).
  - reflexivity.
  - reflexivity.
Defined.

(** A feature present on both sides is finished and its remote branch
    deleted. *)
Example finish_feature_both_sides :
  emitted (finish_feature Scenario.tools "x" Cases.with_feature)
  = [Run (FlowFinish "feature" "x" true false false true);
     Run (OriginPush ":feature/x")].
Proof. reflexivity. Qed.
